(** * TaskMaster API: a shallow embedding of [server.js]

    The server is an Express application in front of one Mongoose model,
    [Task].  The embedding follows the source file from top to bottom:

    - the two process-wide counters and [startTime] ([server.js] 16-18),
    - the schema of [Task] ([server.js] 26-30),
    - the middleware stack and the six route handlers ([server.js] 11-121).

    Express and Mongoose are libraries, not code of this repository.  What
    the handlers rely on is modelled here and kept apart from the handlers.

    Express: middleware runs in the order of registration; a route
    registered with [app.get] also answers HEAD; [cors()] answers a
    preflight itself; [express.json()] hands a body it cannot parse to the
    error handler (400); [res.json] without [res.status] answers 200.

    Mongoose: a string casts to an ObjectId when it is twenty-four
    hexadecimal digits; the three schema paths cast as their types do, and
    [trim] (all of JavaScript's white space, one to three bytes in UTF-8)
    is applied to titles on creation and on update; [Task.create]
    validates [required] before it inserts; [findByIdAndUpdate] casts but
    runs no validator; an operation rejects when the driver does.

    A request is handled in one piece: every handler awaits at most one
    storage operation, and the interleaving of two requests around that
    [await] is not modelled. *)

From stdpp Require Import gmap strings list sorting pretty.
From Stdlib Require Import ZArith Ascii.

Local Open Scope Z_scope.

(** ** JavaScript values that reach the handlers *)

(** A field of a parsed JSON body.  Only scalars are represented: a field
    holding an array or an object is outside the model.  [JNum] carries the
    integer-valued numbers. *)
Inductive json :=
  | JNull
  | JBool (b : bool)
  | JNum (n : Z)
  | JStr (s : string).

(** [!v] is written [negb (truthy v)]; an absent field is [undefined]. *)
Definition truthy (v : option json) : bool :=
  match v with
  | None => false
  | Some JNull => false
  | Some (JBool b) => b
  | Some (JNum n) => negb (n =? 0)
  | Some (JStr s) => negb (String.eqb s "")
  end.

(** A [string] is the UTF-8 text of a JavaScript string.
    [String.prototype.trim] removes white space and line terminators from
    both ends.  Those of one byte are TAB, LF, VT, FF, CR and SPACE. *)
Definition is_space (c : ascii) : bool :=
  let n := nat_of_ascii c in
  ((9 <=? n) && (n <=? 13))%nat || (n =? 32)%nat.

(** No-break space, U+00A0, is two bytes. *)
Definition is_space2 (c1 c2 : ascii) : bool :=
  ((nat_of_ascii c1 =? 194) && (nat_of_ascii c2 =? 160))%nat.

(** The others are three bytes: U+1680; U+2000 to U+200A, the line and
    paragraph separators U+2028 and U+2029, U+202F; U+205F; U+3000; and
    the byte order mark U+FEFF. *)
Definition is_space3 (c1 c2 c3 : ascii) : bool :=
  let x := nat_of_ascii c1 in
  let y := nat_of_ascii c2 in
  let z := nat_of_ascii c3 in
  ((x =? 225) && (y =? 154) && (z =? 128)
   || (x =? 226) && (y =? 128)
      && ((128 <=? z) && (z <=? 138) || (z =? 168) || (z =? 169) || (z =? 175))
   || (x =? 226) && (y =? 129) && (z =? 159)
   || (x =? 227) && (y =? 128) && (z =? 128)
   || (x =? 239) && (y =? 187) && (z =? 191))%nat.


Fixpoint trim_start (s : string) : string :=
  match s with
  | EmptyString => EmptyString
  | String c1 r1 =>
      if is_space c1 then trim_start r1
      else match r1 with
           | String c2 r2 =>
               if is_space2 c1 c2 then trim_start r2
               else match r2 with
                    | String c3 r3 =>
                        if is_space3 c1 c2 c3 then trim_start r3 else s
                    | EmptyString => s
                    end
           | EmptyString => s
           end
  end.

(** A text that is white space from its first byte to its last. *)
Definition all_white (s : string) : bool :=
  match trim_start s with
  | EmptyString => true
  | _ => false
  end.

(** The end is cut where what follows is white space only. *)
Fixpoint trim_end (s : string) : string :=
  match s with
  | EmptyString => EmptyString
  | String c r => if all_white s then EmptyString else String c (trim_end r)
  end.

Definition trim (s : string) : string := trim_end (trim_start s).

(** [process.env.X || d]: an unset or empty variable gives the default. *)
Definition env_or (v : option string) (d : string) : string :=
  match v with
  | Some s => if String.eqb s "" then d else s
  | None => d
  end.

(** ** Mongoose: identifiers and schema casts *)

(** An ObjectId is twelve bytes, kept as the number they spell. *)
Abbreviation ObjectId := N.

Definition hex_digit (c : ascii) : option N :=
  let n := N_of_ascii c in
  if ((48 <=? n) && (n <=? 57))%N then Some (n - 48)%N
  else if ((97 <=? n) && (n <=? 102))%N then Some (n - 87)%N
  else if ((65 <=? n) && (n <=? 70))%N then Some (n - 55)%N
  else None.

Fixpoint hex_value (s : string) (acc : N) : option N :=
  match s with
  | EmptyString => Some acc
  | String c r =>
      match hex_digit c with
      | Some d => hex_value r (16 * acc + d)%N
      | None => None
      end
  end.

(** The cast of a route parameter to an ObjectId: the string has to be
    twenty-four hexadecimal digits. *)
Definition castObjectId (s : string) : option ObjectId :=
  if (String.length s =? 24)%nat then hex_value s 0%N else None.

(** What a rejected promise carries.  [err.message] is not rendered; a 500
    response holds the exception it was built from. *)
Inductive exn :=
  | CastError (kind : string) (value : json) (path : string)
  | ValidationError (path : string)
  | DuplicateKey (id : ObjectId)
  | StorageError (msg : string).

(** The cast to String: [null] stays [null] ([None]), a number or a boolean
    becomes its [toString()] (decimal digits, exact below 10^21), and no
    scalar fails.  The other casts return [inl] for a CastError and [None]
    inside [inr] for [null]. *)
Definition castString (v : json) : option string :=
  match v with
  | JNull => None
  | JBool true => Some "true"
  | JBool false => Some "false"
  | JNum n => Some (pretty n)
  | JStr s => Some s
  end.

(** The [title] path: [type: String, trim: true]. *)
Definition cast_title (v : json) : option string := trim <$> castString v.

(** The [completed] path: Mongoose's [convertToTrue] and [convertToFalse]
    sets, [null] kept, anything else a CastError. *)
Definition castBoolean (v : json) : exn + option bool :=
  match v with
  | JNull => inr None
  | JBool b => inr (Some b)
  | JNum 1 => inr (Some true)
  | JNum 0 => inr (Some false)
  | JStr s =>
      if String.eqb s "true" || String.eqb s "1" || String.eqb s "yes"
      then inr (Some true)
      else if String.eqb s "false" || String.eqb s "0" || String.eqb s "no"
      then inr (Some false)
      else inl (CastError "Boolean" v "completed")
  | _ => inl (CastError "Boolean" v "completed")
  end.

(** The [createdAt] path.  Dates are milliseconds since the epoch, within
    the range of a JavaScript [Date].  How a non-empty string becomes a date
    is the engine's business and is taken from [parse]. *)
Definition max_time : Z := 8640000000000000.

Definition castDate (parse : string → option Z) (v : json) : exn + option Z :=
  match v with
  | JNull => inr None
  | JBool _ => inl (CastError "date" v "createdAt")
  | JNum n =>
      if (- max_time <=? n) && (n <=? max_time) then inr (Some n)
      else inl (CastError "date" v "createdAt")
  | JStr s =>
      if String.eqb s "" then inr None
      else match parse s with
           | Some t => inr (Some t)
           | None => inl (CastError "date" v "createdAt")
           end
  end.

(** ** The [Task] model ([server.js] 26-32) *)

(** A stored document without its key.  [None] is [null]: the schema's
    defaults fill [completed] and [createdAt] on creation, and an update can
    overwrite any of the three with [null]. *)
Record fields := Fields {
  title : option string;
  completed : option bool;
  createdAt : option Z
}.

(** A document as a handler sees it and as [res.json] serialises it. *)
Record Task := Doc {
  _id : ObjectId;
  doc : fields
}.

(** What the runtime supplies while one request is handled. *)
Inductive ReadyState :=
  | Disconnected | Connected | Connecting | Disconnecting | Uninitialized.

Definition readyState_code (r : ReadyState) : Z :=
  match r with
  | Disconnected => 0
  | Connected => 1
  | Connecting => 2
  | Disconnecting => 3
  | Uninitialized => 99
  end.

Record runtime := Runtime {
  now : Z;                          (* Date.now() *)
  heapUsed : N;                     (* process.memoryUsage().heapUsed *)
  readyState : ReadyState;          (* mongoose.connection.readyState *)
  APP_VERSION : option string;      (* process.env.* *)
  HOSTNAME : option string;
  NODE_ENV : option string;
  new_ObjectId : ObjectId;          (* the id the driver generates *)
  storage_fault : option string;    (* the storage operation fails *)
  Date_parse : string → option Z    (* the engine's date parser *)
}.

(** The patch of an update after casting: per path, [None] when the body
    does not provide it. *)
Record update := Update {
  set_title : option (option string);
  set_completed : option (option bool);
  set_createdAt : option (option Z)
}.

(** A parsed body that gives plain values to paths, seen through the three
    schema paths; other plain keys are dropped by the schema's strict mode.
    [req.body] goes whole to [findByIdAndUpdate], so a body may also hold
    update operators ([$inc], [$unset], ...) or the [_id] key: such bodies
    are not represented, and what is stated about an update is stated
    about bodies of plain fields. *)
Record body := Body {
  b_title : option json;
  b_completed : option json;
  b_createdAt : option json
}.

Definition empty_body : body := Body None None None.

Definition cast_field {A} (cast : json → exn + option A) (v : option json)
  : exn + option (option A) :=
  match v with
  | None => inr None
  | Some j => match cast j with
              | inl e => inl e
              | inr a => inr (Some a)
              end
  end.

(** Casting an update runs no validators: [required] is not checked.  A
    title always casts; of two fields that do not, the error names
    [completed]. *)
Definition castUpdate (rt : runtime) (b : body) : exn + update :=
  match cast_field castBoolean (b_completed b) with
  | inl e => inl e
  | inr c =>
      match cast_field (castDate (Date_parse rt)) (b_createdAt b) with
      | inl e => inl e
      | inr d => inr (Update (cast_title <$> b_title b) c d)
      end
  end.

Definition apply_update (u : update) (f : fields) : fields :=
  Fields (default (title f) (set_title u))
         (default (completed f) (set_completed u))
         (default (createdAt f) (set_createdAt u)).


(** The schema's [required: true] on a string path. *)
Definition required_ok (t : option string) : bool :=
  match t with
  | Some s => negb (String.eqb s "")
  | None => false
  end.

(** [sort({ createdAt: -1 })]: later dates first, [null] last. *)
Definition date_le (a b : option Z) : Prop :=
  match a, b with
  | None, _ => True
  | Some _, None => False
  | Some x, Some y => x ≤ y
  end.

Definition newer_first (a b : Task) : Prop :=
  date_le (createdAt (doc b)) (createdAt (doc a)).

Global Instance date_le_dec a b : Decision (date_le a b).
Proof. destruct a, b; simpl; apply _. Defined.

Global Instance newer_first_dec a b : Decision (newer_first a b).
Proof. unfold newer_first; apply _. Defined.

Definition documents (c : gmap N fields) : list Task :=
  (λ kv, Doc kv.1 kv.2) <$> map_to_list c.

(** ** Process state and the handler monad *)

(** [requestCount], [errorCount] and [startTime] ([server.js] 16-18) and the
    collection behind the [Task] model.  The counters are JavaScript numbers
    that only ever hold naturals; [++] on them is exact below 2^53. *)
Record state := State {
  requestCount : N;
  errorCount : N;
  startTime : Z;
  collection : gmap N fields
}.

(** Every stored task has a title the schema's [required] accepts: a
    string that is not empty. *)
Definition every_task_titled (s : state) : Prop :=
  map_Forall (λ _ f, required_ok (title f) = true) (collection s).

Record health_report := Health_report {
  h_status : string;
  h_version : string;
  h_uptime : Z;
  h_mongo : string;
  h_hostname : string;
  h_environment : string
}.

Inductive res_body :=
  | BHealth (h : health_report)
  | BText (s : string)                       (* text/plain *)
  | BTasks (tasks : list Task) (total : nat) (* { tasks, total } *)
  | BTask (t : Task)
  | BMessage (m : string)                    (* { message: m } *)
  | BError (m : string)                      (* { error: m } *)
  | BErrorOf (e : exn)                       (* { error: err.message } *)
  | BEmpty
  | BDefaultError.                           (* Express's own error page *)

Record response := Response {
  status : Z;
  payload : res_body
}.

Inductive route :=
  | Health | Metrics | ListTasks | CreateTask | UpdateTask | DeleteTask
  | NotFound.

(** The effects of one request, in the order the code performs them. *)
Inductive event :=
  | Counted                 (* requestCount++ *)
  | Dispatched (r : route)  (* the router enters a handler *)
  | ErrorCounted            (* errorCount++ *)
  | Sent (r : response).

(** State, a log of events, and exceptions: what [async] handlers with
    [try]/[catch] need. *)
Definition M (A : Type) : Type := state → (exn + A) * state * list event.

Global Instance M_ret : MRet M := λ A a s, (inr a, s, []).

Global Instance M_bind : MBind M := λ A B f m s,
  match m s with
  | (inl e, s1, l1) => (inl e, s1, l1)
  | (inr a, s1, l1) =>
      match f a s1 with
      | (r, s2, l2) => (r, s2, l1 ++ l2)
      end
  end.

Definition throw {A} (e : exn) : M A := λ s, (inl e, s, []).

Definition try_catch {A} (m : M A) (h : exn → M A) : M A := λ s,
  match m s with
  | (inl e, s1, l1) =>
      match h e s1 with
      | (r, s2, l2) => (r, s2, l1 ++ l2)
      end
  | ok => ok
  end.

Definition get_state : M state := λ s, (inr s, s, []).
Definition put_state (s' : state) : M unit := λ _, (inr (), s', []).
Definition emit (e : event) : M unit := λ s, (inr (), s, [e]).

Definition incr_requestCount : M unit :=
  s ← get_state;
  put_state (State (requestCount s + 1)%N (errorCount s) (startTime s) (collection s));;
  emit Counted.

Definition incr_errorCount : M unit :=
  s ← get_state;
  put_state (State (requestCount s) (errorCount s + 1)%N (startTime s) (collection s));;
  emit ErrorCounted.

Definition put_collection (c : gmap N fields) : M unit :=
  s ← get_state;
  put_state (State (requestCount s) (errorCount s) (startTime s) c).

(** [res.status(code).json(b)] and [res.send]; [res.json] alone is 200. *)
Definition send (code : Z) (b : res_body) : M response :=
  emit (Sent (Response code b));; mret (Response code b).

(** ** The collection operations the handlers call *)

(** Every operation that reaches the driver fails when the storage does. *)
Definition storage (rt : runtime) : M unit :=
  match storage_fault rt with
  | Some msg => throw (StorageError msg)
  | None => mret ()
  end.

(** [Task.find().sort({ createdAt: -1 })] *)
Definition Task_find_sorted (rt : runtime) : M (list Task) :=
  storage rt;;
  s ← get_state;
  mret (merge_sort newer_first (documents (collection s))).

(** [Task.create({ title: v })]: the document gets its id and defaults, is
    validated, and is inserted; the unique index on [_id] rejects a key
    that is already taken. *)
Definition Task_create (rt : runtime) (v : option json) : M Task :=
  let t := v ≫= cast_title in
  if negb (required_ok t) then throw (ValidationError "title")
  else
    storage rt;;
    s ← get_state;
    let id := new_ObjectId rt in
    match collection s !! id with
    | Some _ => throw (DuplicateKey id)
    | None =>
        let f := Fields t (Some false) (Some (now rt)) in
        put_collection (<[id := f]> (collection s));;
        mret (Doc id f)
    end.

(** [Task.findByIdAndUpdate(id, b, { new: true })]: the id and the update
    are cast before the driver is reached; the result is the document after
    the update, or [null]. *)
Definition Task_findByIdAndUpdate (rt : runtime) (id : string) (b : body)
  : M (option Task) :=
  match castObjectId id with
  | None => throw (CastError "ObjectId" (JStr id) "_id")
  | Some k =>
      match castUpdate rt b with
      | inl e => throw e
      | inr u =>
          storage rt;;
          s ← get_state;
          match collection s !! k with
          | None => mret None
          | Some f =>
              let f' := apply_update u f in
              put_collection (<[k := f']> (collection s));;
              mret (Some (Doc k f'))
          end
      end
  end.

(** [Task.findByIdAndDelete(id)] *)
Definition Task_findByIdAndDelete (rt : runtime) (id : string)
  : M (option Task) :=
  match castObjectId id with
  | None => throw (CastError "ObjectId" (JStr id) "_id")
  | Some k =>
      storage rt;;
      s ← get_state;
      match collection s !! k with
      | None => mret None
      | Some f =>
          put_collection (delete k (collection s));;
          mret (Some (Doc k f))
      end
  end.

(** ** Requests and the middleware stack *)

Inductive method := GET | HEAD | POST | PUT | DELETE | OPTIONS | PATCH.

(** The request path as the router matches it against the four mount
    points of [server.js]; [Path_task id] carries [req.params.id], the
    decoded parameter.  A parameter that does not percent-decode is
    answered 400 by Express before any route is entered and is not
    represented. *)
Inductive path :=
  | Path_health
  | Path_metrics
  | Path_tasks
  | Path_task (id : string)
  | Path_other.

(** The request body as [express.json()] finds it. *)
Inductive raw_body :=
  | Malformed
  | Parsed (b : body).

Record request := Request {
  req_method : method;
  req_path : path;
  req_raw : raw_body
}.

(** [req.body] once [express.json()] has run. *)
Definition req_body (req : request) : body :=
  match req_raw req with
  | Parsed b => b
  | Malformed => empty_body
  end.

Definition params_id (req : request) : string :=
  match req_path req with
  | Path_task id => id
  | _ => ""
  end.

Definition middleware : Type := request → M response → M response.

(** [helmet()] only sets response headers. *)
Definition helmet : middleware := λ req next, next.

(** [cors()] answers a preflight itself and lets everything else pass. *)
Definition cors : middleware := λ req next,
  match req_method req with
  | OPTIONS => send 204 BEmpty
  | _ => next
  end.

(** [express.json()] hands a body it cannot parse to Express's error
    handler, which answers 400; the rest of the stack is skipped. *)
Definition express_json : middleware := λ req next,
  match req_raw req with
  | Malformed => send 400 BDefaultError
  | Parsed _ => next
  end.

(** [server.js] 20-23 *)
Definition count_requests : middleware := λ req next,
  incr_requestCount;; next.

Inductive mount := At_health | At_metrics | At_tasks | At_task_id.

Definition matches (m : mount) (p : path) : bool :=
  match m, p with
  | At_health, Path_health => true
  | At_metrics, Path_metrics => true
  | At_tasks, Path_tasks => true
  | At_task_id, Path_task _ => true
  | _, _ => false
  end.

(** A route registered for GET also answers HEAD. *)
Definition accepts (registered actual : method) : bool :=
  match registered, actual with
  | GET, GET | GET, HEAD | POST, POST | PUT, PUT | DELETE, DELETE => true
  | _, _ => false
  end.

(** [app.get(path, h)], [app.post(path, h)], ... *)
Definition on (m : method) (at_ : mount) (r : route) (h : request → M response)
  : middleware := λ req next,
  if accepts m (req_method req) && matches at_ (req_path req)
  then emit (Dispatched r);; h req
  else next.

(** [app.use(h)] at the end of the stack. *)
Definition use_last (r : route) (h : request → M response) : request → M response :=
  λ req, emit (Dispatched r);; h req.

Definition run_stack (ms : list middleware) (last : request → M response)
  : request → M response :=
  λ req, foldr (λ mw next, mw req next) (last req) ms.

(** ** The handlers ([server.js] 36-121) *)

(** [`${x / 1000}`] for an integer number of milliseconds [x]: the decimal
    expansion with at most three places and no trailing zero. *)
Definition digit (n : Z) : string := pretty (n `mod` 10).

Definition render_seconds (ms : Z) : string :=
  let a := Z.abs ms in
  let frac := a `mod` 1000 in
  (if ms <? 0 then "-" else "") +:+ pretty (a `div` 1000) +:+
  (if frac =? 0 then ""
   else "." +:+ digit (frac `div` 100) +:+
        (if frac `mod` 100 =? 0 then ""
         else digit (frac `div` 10) +:+
              (if frac `mod` 10 =? 0 then "" else digit frac))).

(** GET /health *)
Definition health_handler (rt : runtime) (req : request) : M response :=
  let mongoStatus :=
    if readyState_code (readyState rt) =? 1 then "connected" else "disconnected" in
  s ← get_state;
  send 200 (BHealth {|
    h_status := "healthy";
    h_version := env_or (APP_VERSION rt) "1.0.0";
    h_uptime := (now rt - startTime s) `div` 1000;
    h_mongo := mongoStatus;
    h_hostname := env_or (HOSTNAME rt) "local";
    h_environment := env_or (NODE_ENV rt) "development"
  |}).

(** GET /metrics *)
Definition LF : string := String "010"%char EmptyString.

Definition metrics_text (rt : runtime) (s : state) : string :=
  let uptime := render_seconds (now rt - startTime s) in
  "# HELP http_requests_total Total HTTP requests" +:+ LF +:+
  "# TYPE http_requests_total counter" +:+ LF +:+
  "http_requests_total " +:+ pretty (requestCount s) +:+ LF +:+ LF +:+
  "# HELP http_errors_total Total HTTP errors" +:+ LF +:+
  "# TYPE http_errors_total counter" +:+ LF +:+
  "http_errors_total " +:+ pretty (errorCount s) +:+ LF +:+ LF +:+
  "# HELP app_uptime_seconds Application uptime" +:+ LF +:+
  "# TYPE app_uptime_seconds gauge" +:+ LF +:+
  "app_uptime_seconds " +:+ uptime +:+ LF +:+ LF +:+
  "# HELP nodejs_process_memory_bytes Process memory usage" +:+ LF +:+
  "# TYPE nodejs_process_memory_bytes gauge" +:+ LF +:+
  "nodejs_process_memory_bytes " +:+ pretty (heapUsed rt) +:+ LF.

Definition metrics_handler (rt : runtime) (req : request) : M response :=
  s ← get_state;
  send 200 (BText (metrics_text rt s)).

(** What every [catch (err)] block does. *)
Definition on_error (err : exn) : M response :=
  incr_errorCount;;
  send 500 (BErrorOf err).

(** GET /api/tasks *)
Definition list_handler (rt : runtime) (req : request) : M response :=
  try_catch
    (tasks ← Task_find_sorted rt;
     send 200 (BTasks tasks (length tasks)))
    on_error.

(** POST /api/tasks *)
Definition create_handler (rt : runtime) (req : request) : M response :=
  try_catch
    (if negb (truthy (b_title (req_body req)))
     then send 400 (BError "Title is required")
     else
       task ← Task_create rt (b_title (req_body req));
       send 201 (BTask task))
    on_error.

(** PUT /api/tasks/:id *)
Definition update_handler (rt : runtime) (req : request) : M response :=
  try_catch
    (task ← Task_findByIdAndUpdate rt (params_id req) (req_body req);
     match task with
     | None => send 404 (BError "Task not found")
     | Some t => send 200 (BTask t)
     end)
    on_error.

(** DELETE /api/tasks/:id *)
Definition delete_handler (rt : runtime) (req : request) : M response :=
  try_catch
    (task ← Task_findByIdAndDelete rt (params_id req);
     match task with
     | None => send 404 (BError "Task not found")
     | Some _ => send 200 (BMessage "Task deleted")
     end)
    on_error.

(** The 404 handler *)
Definition not_found_handler (req : request) : M response :=
  send 404 (BError "Route not found").

(** The application: the stack in the order [server.js] builds it. *)
Definition app (rt : runtime) : request → M response :=
  run_stack
    [ helmet; cors; express_json; count_requests;
      on GET At_health Health (health_handler rt);
      on GET At_metrics Metrics (metrics_handler rt);
      on GET At_tasks ListTasks (list_handler rt);
      on POST At_tasks CreateTask (create_handler rt);
      on PUT At_task_id UpdateTask (update_handler rt);
      on DELETE At_task_id DeleteTask (delete_handler rt) ]
    (use_last NotFound not_found_handler).

(** One request from arrival to response.  No handler lets an exception
    escape; were one to, Express would answer 500 itself. *)
Record outcome := Outcome {
  reply : response;
  after : state;
  trace : list event
}.

Definition serve (rt : runtime) (req : request) (s : state) : outcome :=
  match app rt req s with
  | (inr r, s', l) => Outcome r s' l
  | (inl _, s', l) => Outcome (Response 500 BDefaultError) s' l
  end.

(** ** Reading the exposition format

    The claims about GET /metrics are stated on what a scraper reads from
    the text: a sequence of families, each a HELP line, a TYPE line and a
    sample line, separated by blank lines. *)

Inductive metric_type := Counter | Gauge.

Record family := Family {
  f_name : string;
  f_help : string;
  f_type : metric_type;
  f_value : string
}.

Definition is_LF (c : ascii) : bool := (nat_of_ascii c =? 10)%nat.

Fixpoint lines (s : string) : list string :=
  match s with
  | EmptyString => [EmptyString]
  | String c r =>
      if is_LF c then EmptyString :: lines r
      else match lines r with
           | l :: ls => String c l :: ls
           | [] => [String c EmptyString]
           end
  end.

(** The text before the first space, and the text after it. *)
Fixpoint cut_space (s : string) : string * string :=
  match s with
  | EmptyString => (EmptyString, EmptyString)
  | String c r =>
      if (nat_of_ascii c =? 32)%nat then (EmptyString, r)
      else let '(w, rest) := cut_space r in (String c w, rest)
  end.

Definition read_type (s : string) : option metric_type :=
  if String.eqb s "counter" then Some Counter
  else if String.eqb s "gauge" then Some Gauge
  else None.

(** A comment line [# KEY name text] gives [(name, text)]. *)
Definition read_comment (key line : string) : option (string * string) :=
  let '(hash, r1) := cut_space line in
  let '(k, r2) := cut_space r1 in
  if String.eqb hash "#" && String.eqb k key then Some (cut_space r2) else None.

Definition read_family (help type sample : string) : option family :=
  '(n1, h) ← read_comment "HELP" help;
  '(n2, t) ← read_comment "TYPE" type;
  ty ← read_type t;
  let '(n3, v) := cut_space sample in
  if String.eqb n1 n2 && String.eqb n2 n3 && negb (String.eqb v "")
  then Some (Family n1 h ty v) else None.

Fixpoint read_families (ls : list string) : option (list family) :=
  match ls with
  | [] => Some []
  | help :: type :: sample :: EmptyString :: rest =>
      f ← read_family help type sample;
      fs ← read_families rest;
      Some (f :: fs)
  | _ => None
  end.

Definition read_exposition (text : string) : option (list family) :=
  read_families (lines text).

(** Properties of text the proofs about the reader use. *)
Fixpoint lf_free (s : string) : bool :=
  match s with
  | EmptyString => true
  | String c r => negb (is_LF c) && lf_free r
  end.

Fixpoint space_free (s : string) : bool :=
  match s with
  | EmptyString => true
  | String c r => negb (nat_of_ascii c =? 32)%nat && space_free r
  end.

Definition type_name (t : metric_type) : string :=
  match t with Counter => "counter" | Gauge => "gauge" end.

(** ** Requests one after another *)

(** The requests that get past [cors()] and [express.json()] and so reach
    the counting middleware. *)
Definition reaches_counter (req : request) : bool :=
  match req_method req, req_raw req with
  | OPTIONS, _ => false
  | _, Malformed => false
  | _, Parsed _ => true
  end.

(** The process serves a sequence of requests, each with what the runtime
    supplies at that moment; the replies come in the same order. *)
Fixpoint serve_all (rs : list (runtime * request)) (s : state)
  : list response * state :=
  match rs with
  | [] => ([], s)
  | (rt, req) :: rest =>
      let o := serve rt req s in
      let '(replies, s') := serve_all rest (after o) in
      (reply o :: replies, s')
  end.

Definition is_500 (r : response) : bool := status r =? 500.

(** The pairs of method and path none of the six routes of [server.js]
    37, 50, 70, 81, 95, 107 is registered for. *)
Definition unmatched (m : method) (p : path) : bool :=
  match m, p with
  | (GET | HEAD), (Path_health | Path_metrics | Path_tasks) => false
  | POST, Path_tasks => false
  | (PUT | DELETE), Path_task _ => false
  | _, _ => true
  end.

(** The four things a request can do to the collection, with the status
    each comes with: nothing, the insertion of [Task.create], the overwrite
    of [findByIdAndUpdate], the removal of [findByIdAndDelete]. *)
Inductive effect (rt : runtime) (req : request) (c : gmap N fields)
  : Z → gmap N fields → Prop :=
  | Untouched st : effect rt req c st c
  | Created t :
      req_method req = POST →
      t = b_title (req_body req) ≫= cast_title →
      required_ok t = true →
      c !! new_ObjectId rt = None →
      effect rt req c 201
        (<[new_ObjectId rt := Fields t (Some false) (Some (now rt))]> c)
  | Updated k f u :
      req_method req = PUT →
      castObjectId (params_id req) = Some k →
      castUpdate rt (req_body req) = inr u →
      c !! k = Some f →
      effect rt req c 200 (<[k := apply_update u f]> c)
  | Deleted k f :
      req_method req = DELETE →
      castObjectId (params_id req) = Some k →
      c !! k = Some f →
      effect rt req c 200 (delete k c).


(** ** Start-up ([server.js] 7-8, 124-140) *)

(** [process.env.PORT || 5000] and [process.env.MONGO_URI || '...'], as the
    text the template strings print. *)
Definition PORT (env_PORT : option string) : string := env_or env_PORT "5000".

Definition MONGO_URI (env_MONGO_URI : option string) : string :=
  env_or env_MONGO_URI "mongodb://localhost:27017/taskmaster".

(** What [start()] does to the outside, in order. *)
Inductive boot_event :=
  | Connect (uri : string)          (* mongoose.connect(uri) *)
  | Log (line : string)             (* console.log *)
  | Warn (line : string)            (* console.warn *)
  | Listen (port host : string).    (* app.listen(port, host, callback) *)

(** [connect] is the outcome of [await mongoose.connect(MONGO_URI)]: [None]
    when it resolves, the message of the error when it rejects.  The port
    is taken to be free, so that the callback of [app.listen] runs. *)
Definition start (env_PORT env_MONGO_URI : option string) (connect : option string)
  : list boot_event :=
  let port := PORT env_PORT in
  let uri := MONGO_URI env_MONGO_URI in
  Connect uri ::
  match connect with
  | None => [Log ("MongoDB connected: " +:+ uri)]
  | Some message =>
      [Warn ("MongoDB not available: " +:+ message);
       Warn "Running without database — health endpoint still works"]
  end ++
  [Listen port "0.0.0.0";
   Log ("TaskMaster API running on port " +:+ port);
   Log ("Health: http://localhost:" +:+ port +:+ "/health");
   Log ("Metrics: http://localhost:" +:+ port +:+ "/metrics")].

Definition is_listen (e : boot_event) : bool :=
  match e with Listen _ _ => true | _ => false end.

Definition is_warn (e : boot_event) : bool :=
  match e with Warn _ => true | _ => false end.

(** ** Sample data *)

Definition no_dates : string → option Z := λ _, None.

(** A runtime whose storage works, and one whose storage is down. *)
Definition rt_up : runtime :=
  Runtime 1700000001500 52428800 Connected None None None 7 None no_dates.

Definition rt_down : runtime :=
  Runtime 1700000001500 52428800 Disconnected None None None 7
          (Some "buffering timed out") no_dates.

Definition fresh_state : state := State 0 0 1700000000000 ∅.

Definition milk : fields := Fields (Some "Buy milk") (Some false) (Some 1700000000500).

Definition one_task : state := State 3 0 1700000000000 {[ 7%N := milk ]}.

Definition bread : fields := Fields (Some "Buy bread") (Some true) (Some 1700000000900).

Definition two_tasks : state := State 5 1 1700000000000 {[ 7%N := milk; 8%N := bread ]}.

(** A no-break space, U+00A0, then a space: white space only. *)
Definition blank_title : string :=
  String "194"%char (String "160"%char (String " "%char EmptyString)).

Definition id7 : string := "000000000000000000000007".

Definition with_title (v : json) : raw_body := Parsed (Body (Some v) None None).

(** ** Proof tools *)

Ltac unfold_app :=
  unfold serve, app, run_stack, on, use_last, helmet, cors, express_json,
    count_requests, health_handler, metrics_handler, list_handler,
    create_handler, update_handler, delete_handler, not_found_handler,
    on_error, Task_find_sorted, Task_create, Task_findByIdAndUpdate,
    Task_findByIdAndDelete, storage, send, incr_requestCount,
    incr_errorCount, put_collection, try_catch, throw, emit, get_state,
    put_state, mbind, mret, M_bind, M_ret, req_body, params_id.

Ltac run := unfold_app; cbn -[metrics_text merge_sort documents].

Ltac split_all := repeat match goal with |- _ ∧ _ => split end.

(** Case analysis on whatever a handler's run is waiting for. *)
Ltac crack :=
  repeat (cbn -[metrics_text merge_sort documents];
    match goal with
    | |- context [storage_fault ?rt] => destruct (storage_fault rt) eqn:?
    | |- context [castObjectId ?i] => destruct (castObjectId i) eqn:?
    | |- context [castUpdate ?r ?b] => destruct (castUpdate r b) eqn:?
    | |- context [collection ?s !! ?k] => destruct (collection s !! k) eqn:?
    | |- context [truthy ?v] => destruct (truthy v) eqn:?
    | |- context [required_ok ?t] => destruct (required_ok t) eqn:?
    end).

(** ** GET /health *)

(** C8. GET /health answers 200 with status "healthy" in every state of the
    process and of the database connection, whatever the parsed body; it
    raises nothing and touches neither [errorCount] nor the
    collection; its [mongo] field is "connected" when the connection's
    ready state is connected and "disconnected" in every other ready
    state. *)
Theorem health_always_200 (rt : runtime) (s : state) (raw : body) :
  let o := serve rt (Request GET Path_health (Parsed raw)) s in
  status (reply o) = 200 ∧
  (∃ h, payload (reply o) = BHealth h ∧
        h_status h = "healthy" ∧
        h_mongo h = match readyState rt with
                    | Connected => "connected"
                    | _ => "disconnected"
                    end ∧
        (h_mongo h = "connected" ↔ readyState rt = Connected)) ∧
  errorCount (after o) = errorCount s ∧
  collection (after o) = collection s ∧
  trace o = [Counted; Dispatched Health; Sent (reply o)].
Proof.
  run. split_all; try reflexivity.
  eexists; split_all; try reflexivity.
  - by destruct (readyState rt).
  - by destruct (readyState rt).
Qed.

(** ** POST /api/tasks *)

(** C3. A POST /api/tasks whose body has no title, or the empty string as
    title, is answered 400 with [{ error: "Title is required" }], and the
    collection is left as it was. *)
Theorem create_without_title_400 (rt : runtime) (s : state) (b : body)
  (Htitle : b_title b = None ∨ b_title b = Some (JStr "")) :
  let o := serve rt (Request POST Path_tasks (Parsed b)) s in
  reply o = Response 400 (BError "Title is required") ∧
  collection (after o) = collection s.
Proof.
  run. by destruct Htitle as [-> | ->].
Qed.

Lemma create_without_title_400_witness :
  let o := serve rt_down (Request POST Path_tasks (with_title (JStr ""))) one_task in
  reply o = Response 400 (BError "Title is required") ∧
  collection (after o) = collection one_task.
Proof.
  apply (create_without_title_400 rt_down one_task (Body (Some (JStr "")) None None)).
  right. reflexivity.
Defined.

Lemma eqb_empty_false (t : string) : t ≠ "" → String.eqb t "" = false.
Proof. intros H. by apply String.eqb_neq. Qed.

Lemma trim_nonempty (t : string) : trim t ≠ "" → t ≠ "".
Proof. intros H ->. by apply H. Qed.

(** C7 as stated fails on "the given title": a title with white space
    around it is answered 201, and the task created and returned carries
    the title without that white space, not the title given. *)
Lemma create_title_not_as_given :
  let given := " Buy milk " in
  let o := serve rt_up (Request POST Path_tasks (with_title (JStr given))) fresh_state in
  ∃ task,
    reply o = Response 201 (BTask task) ∧
    title (doc task) = Some "Buy milk" ∧
    title (doc task) ≠ Some given.
Proof. eexists. split_all; by vm_compute. Qed.

(** C7, amended. A POST /api/tasks whose title is a string that is not
    empty once trimmed is answered 201 with the created task: the
    generated id, the given title without its surrounding white space,
    [completed] false and [createdAt] the time of creation; the task is
    stored under that id.  The insertion is taken to reach the storage and
    the generated id to be new. *)
Theorem create_valid_title_201 (rt : runtime) (s : state) (b : body) (t : string)
  (Htitle : b_title b = Some (JStr t))
  (Hvalid : trim t ≠ "")
  (Hstorage : storage_fault rt = None)
  (Hnew : collection s !! new_ObjectId rt = None) :
  let o := serve rt (Request POST Path_tasks (Parsed b)) s in
  let f := Fields (Some (trim t)) (Some false) (Some (now rt)) in
  reply o = Response 201 (BTask (Doc (new_ObjectId rt) f)) ∧
  collection (after o) = <[new_ObjectId rt := f]> (collection s) ∧
  collection (after o) !! new_ObjectId rt = Some f ∧
  errorCount (after o) = errorCount s.
Proof.
  run. rewrite Htitle; cbn.
  rewrite (eqb_empty_false t (trim_nonempty t Hvalid)); cbn.
  rewrite (eqb_empty_false _ Hvalid); cbn.
  rewrite Hstorage; cbn. rewrite Hnew; cbn.
  split_all; try done. apply lookup_insert_eq.
Qed.

Lemma create_valid_title_201_witness :
  let o := serve rt_up (Request POST Path_tasks (with_title (JStr " Buy milk ")))
                 fresh_state in
  let f := Fields (Some "Buy milk") (Some false) (Some 1700000001500) in
  reply o = Response 201 (BTask (Doc 7%N f)) ∧
  collection (after o) = <[7%N := f]> (collection fresh_state) ∧
  collection (after o) !! 7%N = Some f ∧
  errorCount (after o) = errorCount fresh_state.
Proof.
  apply (create_valid_title_201 rt_up fresh_state
           (Body (Some (JStr " Buy milk ")) None None) " Buy milk ");
    by vm_compute.
Defined.

(** ** PUT and DELETE /api/tasks/:id *)

(** C10. A PUT or DELETE on /api/tasks/:id whose id is not a well-formed
    ObjectId is answered 500 with the message of the cast error, not 404,
    whatever the body and whether or not the storage is reachable; the
    collection is left as it was. *)
Theorem malformed_id_500 (rt : runtime) (s : state) (id : string) (b : body)
  (Hid : castObjectId id = None) :
  let put := serve rt (Request PUT (Path_task id) (Parsed b)) s in
  let del := serve rt (Request DELETE (Path_task id) (Parsed b)) s in
  reply put = Response 500 (BErrorOf (CastError "ObjectId" (JStr id) "_id")) ∧
  collection (after put) = collection s ∧
  reply del = Response 500 (BErrorOf (CastError "ObjectId" (JStr id) "_id")) ∧
  collection (after del) = collection s.
Proof.
  run. rewrite Hid; cbn. done.
Qed.

Lemma malformed_id_500_witness :
  let put := serve rt_up (Request PUT (Path_task "abc") (Parsed empty_body)) one_task in
  let del := serve rt_up (Request DELETE (Path_task "abc") (Parsed empty_body)) one_task in
  reply put = Response 500 (BErrorOf (CastError "ObjectId" (JStr "abc") "_id")) ∧
  collection (after put) = collection one_task ∧
  reply del = Response 500 (BErrorOf (CastError "ObjectId" (JStr "abc") "_id")) ∧
  collection (after del) = collection one_task.
Proof.
  apply (malformed_id_500 rt_up one_task "abc" empty_body). reflexivity.
Defined.

(** C9 as stated fails: "abc" names no task, and the answer is 500. *)
Lemma delete_unknown_id_not_404 :
  let o := serve rt_up (Request DELETE (Path_task "abc") (Parsed empty_body)) one_task in
  (∀ k, castObjectId "abc" = Some k → collection one_task !! k = None) ∧
  reply o ≠ Response 404 (BError "Task not found") ∧
  status (reply o) = 500.
Proof. by vm_compute. Qed.



Section ById.

(** The route parameter is a well-formed ObjectId and the storage answers:
    the setting in which an id can be looked up at all. *)
Variables (rt : runtime) (s : state) (id : string) (k : N) (b : body).
Hypothesis Hid : castObjectId id = Some k.
Hypothesis Hstorage : storage_fault rt = None.

(** C9, amended. For every well-formed id, with the storage reachable,
    DELETE /api/tasks/:id answers 404 with [{ error: "Task not found" }]
    when no task has that id and leaves the collection alone; otherwise it
    removes that task and no other, answers 200 with
    [{ message: "Task deleted" }], and a later listing holds no task with
    that id. *)
Theorem delete_by_id :
  let o := serve rt (Request DELETE (Path_task id) (Parsed b)) s in
  match collection s !! k with
  | None =>
      reply o = Response 404 (BError "Task not found") ∧
      collection (after o) = collection s
  | Some _ =>
      reply o = Response 200 (BMessage "Task deleted") ∧
      collection (after o) = delete k (collection s) ∧
      ∀ rt' b' tasks total,
        payload (reply (serve rt' (Request GET Path_tasks (Parsed b')) (after o)))
          = BTasks tasks total →
        ∀ t, t ∈ tasks → _id t ≠ k
  end.
Proof.
  run. rewrite Hid; cbn. rewrite Hstorage; cbn.
  destruct (collection s !! k) as [f|] eqn:Hk; cbn; [|done].
  split_all; try done.
  intros rt' b' tasks total. run.
  destruct (storage_fault rt'); cbn; [done|].
  intros [= <- _] t Ht.
  rewrite merge_sort_Permutation in Ht.
  unfold documents in Ht. apply list_elem_of_fmap in Ht as ([k' f'] & -> & Hin).
  apply elem_of_map_to_list in Hin. cbn. intros ->.
  by rewrite lookup_delete_eq in Hin.
Qed.


End ById.

Lemma delete_by_id_witness :
  let o := serve rt_up (Request DELETE (Path_task id7) (Parsed empty_body)) one_task in
  reply o = Response 200 (BMessage "Task deleted") ∧
  collection (after o) = delete 7%N (collection one_task) ∧
  ∀ rt' b' tasks total,
    payload (reply (serve rt' (Request GET Path_tasks (Parsed b')) (after o)))
      = BTasks tasks total →
    ∀ t, t ∈ tasks → _id t ≠ 7%N.
Proof.
  exact (delete_by_id rt_up one_task id7 7%N empty_body eq_refl eq_refl).
Defined.


(** ** The title invariant *)

(** Creation keeps the invariant, whatever the body and the runtime. *)
Lemma create_keeps_titles (rt : runtime) (s : state) (raw : raw_body) :
  every_task_titled s →
  every_task_titled (after (serve rt (Request POST Path_tasks raw) s)).
Proof.
  unfold every_task_titled. intros Hinv.
  destruct raw as [|b]; run; [done|].
  destruct (truthy (b_title b)); cbn; [|done].
  destruct (required_ok _) eqn:Hreq; cbn; [|done].
  destruct (storage_fault rt); cbn; [done|].
  destruct (collection s !! new_ObjectId rt) eqn:Hk; cbn; [done|].
  by apply map_Forall_insert_2.
Qed.

(** So do listing, deletion and every request that is not a PUT. *)
Lemma others_keep_titles (rt : runtime) (req : request) (s : state) :
  req_method req ≠ PUT →
  every_task_titled s →
  every_task_titled (after (serve rt req s)).
Proof.
  intros Hm Hinv. destruct req as [m p raw]. cbn in Hm.
  destruct m; try congruence; destruct p;
    lazymatch goal with
    | |- every_task_titled (after (serve _ (Request POST Path_tasks _) _)) =>
        apply create_keeps_titles; exact Hinv
    | _ => idtac
    end;
    unfold every_task_titled in *; destruct raw; run; crack;
    solve [ exact Hinv | apply map_Forall_delete; exact Hinv ].
Qed.

(** C1 fails on the update path: a PUT that sets the title to the empty
    string on an existing task is answered 200 and leaves that task stored
    with an empty title, although the state before it met the invariant. *)
Theorem update_stores_empty_title :
  let o := serve rt_up (Request PUT (Path_task id7) (with_title (JStr ""))) one_task in
  every_task_titled one_task ∧
  status (reply o) = 200 ∧
  (title <$> collection (after o) !! 7%N) = Some (Some "") ∧
  ¬ every_task_titled (after o).
Proof.
  cbv zeta. split_all.
  - unfold every_task_titled, one_task; cbn.
    by apply map_Forall_singleton.
  - by vm_compute.
  - by vm_compute.
  - intros Hinv.
    specialize (Hinv 7%N (Fields (Some "") (Some false) (Some 1700000000500)) eq_refl).
    done.
Qed.

(** ** GET /api/tasks *)

Global Instance newer_first_total : Total newer_first.
Proof.
  intros a b. unfold newer_first.
  destruct (createdAt (doc a)), (createdAt (doc b)); cbn; auto; lia.
Qed.

Global Instance newer_first_trans : Transitive newer_first.
Proof.
  intros a b c. unfold newer_first.
  destruct (createdAt (doc a)), (createdAt (doc b)), (createdAt (doc c));
    cbn; auto; try lia; done.
Qed.

Lemma documents_spec (c : gmap N fields) (k : N) (f : fields) :
  Doc k f ∈ documents c ↔ c !! k = Some f.
Proof.
  unfold documents. rewrite list_elem_of_fmap. split.
  - intros ([k' f'] & [= -> ->] & Hin). by apply elem_of_map_to_list in Hin.
  - intros Hk. exists (k, f). split; [done|]. by apply elem_of_map_to_list.
Qed.

Lemma documents_length (c : gmap N fields) : length (documents c) = size c.
Proof. unfold documents. by rewrite length_fmap, length_map_to_list. Qed.

(** C5. With the storage reachable, and for every content of the
    collection, GET /api/tasks answers 200 with [{ tasks, total }]: [tasks]
    holds the stored tasks, each once, ordered by [createdAt] descending;
    [total] is the length of [tasks]; an empty collection gives the empty
    sequence and total 0.  The collection is not changed. *)
Theorem list_sorted_with_total (rt : runtime) (s : state) (b : body)
  (Hstorage : storage_fault rt = None) :
  let o := serve rt (Request GET Path_tasks (Parsed b)) s in
  ∃ tasks,
    reply o = Response 200 (BTasks tasks (length tasks)) ∧
    tasks ≡ₚ documents (collection s) ∧
    (∀ k f, Doc k f ∈ tasks ↔ collection s !! k = Some f) ∧
    StronglySorted newer_first tasks ∧
    length tasks = size (collection s) ∧
    (collection s = ∅ → tasks = []) ∧
    collection (after o) = collection s.
Proof.
  run. rewrite Hstorage; cbn -[merge_sort documents].
  exists (merge_sort newer_first (documents (collection s))).
  split_all; try done.
  - apply merge_sort_Permutation.
  - intros k f. rewrite merge_sort_Permutation. apply documents_spec.
  - apply StronglySorted_merge_sort; apply _.
  - by rewrite merge_sort_Permutation, documents_length.
  - intros Hempty. apply length_zero_iff_nil.
    by rewrite merge_sort_Permutation, documents_length, Hempty, map_size_empty.
Qed.

(** ** The counters *)



(** ** GET /metrics *)

Local Arguments String.append !_ _ / : simpl nomatch.

Lemma lf_free_app (a b : string) :
  lf_free a = true → lf_free b = true → lf_free (a +:+ b) = true.
Proof.
  induction a as [|c a IH]; cbn -[is_LF]; [done|].
  destruct (is_LF c); cbn; [done|]. apply IH.
Qed.

Lemma lf_free_digit (d : N) (s : string) :
  lf_free s = true → lf_free (String (pretty_N_char d) s) = true.
Proof.
  intros Hs. unfold pretty_N_char. repeat case_match; by cbn.
Qed.

Lemma lf_free_pretty_N_go (x : N) (s : string) :
  lf_free s = true → lf_free (pretty_N_go x s) = true.
Proof.
  revert s. induction (N.lt_wf_0 x) as [x _ IH]. intros s Hs.
  destruct (decide (x = 0%N)) as [->|Hx]; [by rewrite pretty_N_go_0|].
  rewrite pretty_N_go_step by lia.
  apply IH; [apply N.div_lt; lia|]. by apply lf_free_digit.
Qed.

Lemma lf_free_pretty_N (x : N) : lf_free (pretty x) = true.
Proof.
  unfold pretty, pretty_N. case_decide; [done|]. by apply lf_free_pretty_N_go.
Qed.

Lemma lf_free_pretty_Z (x : Z) : lf_free (pretty x) = true.
Proof.
  destruct x as [|p|p]; unfold pretty, pretty_Z; [done| |].
  - apply lf_free_pretty_N.
  - apply lf_free_app; [done|]. apply lf_free_pretty_N.
Qed.

Lemma lf_free_render_seconds (ms : Z) : lf_free (render_seconds ms) = true.
Proof.
  unfold render_seconds, digit.
  repeat first
    [ reflexivity
    | apply lf_free_pretty_Z
    | match goal with |- context [if ?c then _ else _] => destruct c end
    | match goal with |- lf_free (_ +:+ _) = true => apply lf_free_app end ].
Qed.

Lemma nonempty_pretty_N_go (x : N) (s : string) :
  s ≠ "" → pretty_N_go x s ≠ "".
Proof.
  revert s. induction (N.lt_wf_0 x) as [x _ IH]. intros s Hs.
  destruct (decide (x = 0%N)) as [->|Hx]; [by rewrite pretty_N_go_0|].
  rewrite pretty_N_go_step by lia.
  apply IH; [apply N.div_lt; lia|done].
Qed.

Lemma nonempty_pretty_N (x : N) : String.eqb (pretty x) "" = false.
Proof.
  apply String.eqb_neq. unfold pretty, pretty_N. case_decide; [done|].
  destruct (decide (0 < x)%N) as [Hx|]; [|lia].
  rewrite pretty_N_go_step by done. by apply nonempty_pretty_N_go.
Qed.

Lemma nonempty_app (a b : string) : a ≠ "" → a +:+ b ≠ "".
Proof. by destruct a. Qed.

Lemma nonempty_pretty_Z (x : Z) : pretty x ≠ "".
Proof.
  destruct x as [|p|p]; unfold pretty, pretty_Z; [done| |done].
  apply String.eqb_neq, nonempty_pretty_N.
Qed.

Lemma nonempty_render_seconds (ms : Z) :
  String.eqb (render_seconds ms) "" = false.
Proof.
  apply String.eqb_neq. unfold render_seconds.
  destruct (ms <? 0); cbn -[pretty].
  - done.
  - apply nonempty_app, nonempty_pretty_Z.
Qed.

(** A line without line feed, followed by a line feed, is one line. *)
Lemma lines_value (v r : string) :
  lf_free v = true → lines (v +:+ LF +:+ r) = v :: lines r.
Proof.
  induction v as [|c v IH]; [done|].
  change (String c v +:+ LF +:+ r) with (String c (v +:+ LF +:+ r)).
  cbn [lines lf_free]. destruct (is_LF c); cbn [negb andb]; [done|].
  intros Hv. by rewrite IH.
Qed.

Lemma lines_sample (a v r : string) :
  lf_free a = true → lf_free v = true →
  lines (a +:+ v +:+ LF +:+ r) = (a +:+ v) :: lines r.
Proof.
  intros Ha Hv. rewrite <- lines_value by by apply lf_free_app.
  f_equal. clear. induction a as [|c a IH]; [done|].
  change (String c a +:+ ?x) with (String c (a +:+ x)). by rewrite IH.
Qed.

Lemma cut_space_word (w r : string) :
  space_free w = true → cut_space (w +:+ " " +:+ r) = (w, r).
Proof.
  induction w as [|c w IH]; [done|].
  intros [Hc Hw]%andb_prop. apply negb_true_iff in Hc.
  change (String c w +:+ " " +:+ r) with (String c (w +:+ " " +:+ r)).
  cbn [cut_space]. by rewrite Hc, IH.
Qed.

Lemma read_comment_line (key name text : string) :
  space_free key = true → space_free name = true →
  read_comment key ("#" +:+ " " +:+ key +:+ " " +:+ name +:+ " " +:+ text)
    = Some (name, text).
Proof.
  intros Hk Hn. unfold read_comment.
  rewrite (cut_space_word "#") by done.
  rewrite (cut_space_word key) by done.
  rewrite (cut_space_word name) by done.
  by rewrite !String.eqb_refl.
Qed.

(** The three lines of a family read back as that family. *)
Lemma read_family_lines (f : family) :
  space_free (f_name f) = true →
  String.eqb (f_value f) "" = false →
  read_family
    ("#" +:+ " " +:+ "HELP" +:+ " " +:+ f_name f +:+ " " +:+ f_help f)
    ("#" +:+ " " +:+ "TYPE" +:+ " " +:+ f_name f +:+ " " +:+ type_name (f_type f))
    (f_name f +:+ " " +:+ f_value f)
  = Some f.
Proof.
  intros Hn Hv. unfold read_family.
  rewrite !read_comment_line by done. cbn [mbind option_bind].
  replace (read_type (type_name (f_type f))) with (Some (f_type f))
    by by destruct (f_type f).
  cbn [mbind option_bind].
  rewrite cut_space_word by done.
  rewrite String.eqb_refl, Hv. by destruct f.
Qed.

(** The lines of the text, for every value of the counters, the clock and
    the heap. *)
Lemma metrics_text_lines (rt : runtime) (s : state) :
  lines (metrics_text rt s) =
    [ "# HELP http_requests_total Total HTTP requests";
      "# TYPE http_requests_total counter";
      "http_requests_total " +:+ pretty (requestCount s);
      "";
      "# HELP http_errors_total Total HTTP errors";
      "# TYPE http_errors_total counter";
      "http_errors_total " +:+ pretty (errorCount s);
      "";
      "# HELP app_uptime_seconds Application uptime";
      "# TYPE app_uptime_seconds gauge";
      "app_uptime_seconds " +:+ render_seconds (now rt - startTime s);
      "";
      "# HELP nodejs_process_memory_bytes Process memory usage";
      "# TYPE nodejs_process_memory_bytes gauge";
      "nodejs_process_memory_bytes " +:+ pretty (heapUsed rt);
      "" ].
Proof.
  unfold metrics_text.
  pose proof lf_free_pretty_N. pose proof lf_free_render_seconds.
  repeat first
    [ rewrite lines_value by reflexivity
    | rewrite lines_sample by done ].
  change (lines (LF +:+ ?r)) with ("" :: lines r).
  repeat first
    [ rewrite lines_value by reflexivity
    | rewrite lines_sample by done
    | progress change (lines (LF +:+ ?r)) with ("" :: lines r) ].
  change (?a +:+ ?v +:+ LF) with (a +:+ v +:+ LF +:+ "").
  by rewrite lines_sample by done.
Qed.

Lemma metrics_text_read (rt : runtime) (s : state) :
  read_exposition (metrics_text rt s) = Some
    [ Family "http_requests_total" "Total HTTP requests" Counter
             (pretty (requestCount s));
      Family "http_errors_total" "Total HTTP errors" Counter
             (pretty (errorCount s));
      Family "app_uptime_seconds" "Application uptime" Gauge
             (render_seconds (now rt - startTime s));
      Family "nodejs_process_memory_bytes" "Process memory usage" Gauge
             (pretty (heapUsed rt)) ].
Proof.
  unfold read_exposition. rewrite metrics_text_lines.
  cbn [read_families].
  assert (read_family "# HELP http_requests_total Total HTTP requests"
            "# TYPE http_requests_total counter"
            ("http_requests_total " +:+ pretty (requestCount s))
          = Some (Family "http_requests_total" "Total HTTP requests" Counter
                         (pretty (requestCount s)))) as ->.
  { exact (read_family_lines (Family "http_requests_total" "Total HTTP requests" Counter (pretty (requestCount s)))
             eq_refl (nonempty_pretty_N _)). }
  assert (read_family "# HELP http_errors_total Total HTTP errors"
            "# TYPE http_errors_total counter"
            ("http_errors_total " +:+ pretty (errorCount s))
          = Some (Family "http_errors_total" "Total HTTP errors" Counter
                         (pretty (errorCount s)))) as ->.
  { exact (read_family_lines (Family "http_errors_total" "Total HTTP errors" Counter (pretty (errorCount s)))
             eq_refl (nonempty_pretty_N _)). }
  assert (read_family "# HELP app_uptime_seconds Application uptime"
            "# TYPE app_uptime_seconds gauge"
            ("app_uptime_seconds " +:+ render_seconds (now rt - startTime s))
          = Some (Family "app_uptime_seconds" "Application uptime" Gauge
                         (render_seconds (now rt - startTime s)))) as ->.
  { exact (read_family_lines (Family "app_uptime_seconds" "Application uptime" Gauge (render_seconds (now rt - startTime s)))
             eq_refl (nonempty_render_seconds _)). }
  assert (read_family "# HELP nodejs_process_memory_bytes Process memory usage"
            "# TYPE nodejs_process_memory_bytes gauge"
            ("nodejs_process_memory_bytes " +:+ pretty (heapUsed rt))
          = Some (Family "nodejs_process_memory_bytes" "Process memory usage" Gauge
                         (pretty (heapUsed rt)))) as ->.
  { exact (read_family_lines (Family "nodejs_process_memory_bytes" "Process memory usage" Gauge (pretty (heapUsed rt)))
             eq_refl (nonempty_pretty_N _)). }
  reflexivity.
Qed.

(** C4 as stated fails on the fourth name: the text served has no metric
    called process_memory_bytes; the heap gauge is
    nodejs_process_memory_bytes. *)
Lemma metrics_fourth_name :
  let o := serve rt_up (Request GET Path_metrics (Parsed empty_body)) fresh_state in
  ∃ text fams,
    payload (reply o) = BText text ∧
    read_exposition text = Some fams ∧
    f_name <$> fams =
      ["http_requests_total"; "http_errors_total"; "app_uptime_seconds";
       "nodejs_process_memory_bytes"] ∧
    f_name <$> fams ≠
      ["http_requests_total"; "http_errors_total"; "app_uptime_seconds";
       "process_memory_bytes"] ∧
    "process_memory_bytes" ∉ f_name <$> fams.
Proof.
  eexists _, _. split_all.
  - by vm_compute.
  - by vm_compute.
  - by vm_compute.
  - by vm_compute.
  - vm_compute. intros H.
    repeat (apply elem_of_cons in H as [H|H]; [done|]).
    by apply elem_of_nil in H.
Qed.

(** C4, amended. GET /metrics answers 200 with plain text that reads as
    exactly four metrics, each with a HELP comment and a TYPE comment
    before its sample: http_requests_total (counter, the requests counted
    so far, this one included), http_errors_total (counter),
    app_uptime_seconds (gauge, the milliseconds since start rendered as
    seconds with their fraction) and nodejs_process_memory_bytes (gauge,
    the heap in use). *)
Theorem metrics_four_families (rt : runtime) (s : state) (b : body) :
  let o := serve rt (Request GET Path_metrics (Parsed b)) s in
  ∃ text,
    reply o = Response 200 (BText text) ∧
    read_exposition text = Some
      [ Family "http_requests_total" "Total HTTP requests" Counter
               (pretty (requestCount s + 1)%N);
        Family "http_errors_total" "Total HTTP errors" Counter
               (pretty (errorCount s));
        Family "app_uptime_seconds" "Application uptime" Gauge
               (render_seconds (now rt - startTime s));
        Family "nodejs_process_memory_bytes" "Process memory usage" Gauge
               (pretty (heapUsed rt)) ].
Proof.
  run. eexists. split; [reflexivity|].
  by rewrite metrics_text_read.
Qed.

(** The rendering of the uptime on a few values. *)
Example render_seconds_samples :
  render_seconds 1500 = "1.5" ∧ render_seconds 1000 = "1" ∧
  render_seconds 1234 = "1.234" ∧ render_seconds 70 = "0.07" ∧
  render_seconds 0 = "0" ∧ render_seconds 86400000 = "86400".
Proof. by vm_compute. Qed.

(** ** The examples of the specification *)

Lemma list_sorted_with_total_witness :
  let o := serve rt_up (Request GET Path_tasks (Parsed empty_body)) two_tasks in
  ∃ tasks,
    reply o = Response 200 (BTasks tasks (length tasks)) ∧
    tasks ≡ₚ documents (collection two_tasks) ∧
    (∀ k f, Doc k f ∈ tasks ↔ collection two_tasks !! k = Some f) ∧
    StronglySorted newer_first tasks ∧
    length tasks = size (collection two_tasks) ∧
    (collection two_tasks = ∅ → tasks = []) ∧
    collection (after o) = collection two_tasks.
Proof.
  exact (list_sorted_with_total rt_up two_tasks empty_body eq_refl).
Defined.

(** The later task comes first; nothing stored gives total 0. *)
Example list_two_tasks :
  reply (serve rt_up (Request GET Path_tasks (Parsed empty_body)) two_tasks)
    = Response 200 (BTasks [Doc 8%N bread; Doc 7%N milk] 2) ∧
  reply (serve rt_up (Request GET Path_tasks (Parsed empty_body)) fresh_state)
    = Response 200 (BTasks [] 0).
Proof. by vm_compute. Qed.

(** POST { title: "Buy milk" } gives 201, and the listing after it has
    total 1. *)
Example buy_milk :
  let o := serve rt_up (Request POST Path_tasks (with_title (JStr "Buy milk"))) fresh_state in
  let f := Fields (Some "Buy milk") (Some false) (Some 1700000001500) in
  reply o = Response 201 (BTask (Doc 7%N f)) ∧
  reply (serve rt_up (Request GET Path_tasks (Parsed empty_body)) (after o))
    = Response 200 (BTasks [Doc 7%N f] 1).
Proof. by vm_compute. Qed.

(** A title of blanks passes the handler's check and fails the schema's:
    500, nothing stored. *)
Example create_blank_title :
  let o := serve rt_up (Request POST Path_tasks (with_title (JStr "   "))) fresh_state in
  reply o = Response 500 (BErrorOf (ValidationError "title")) ∧
  collection (after o) = ∅.
Proof. by vm_compute. Qed.

(** With the storage down a listing is answered 500 and counted as an
    error; /health still answers 200 and reports the connection. *)
Example storage_down :
  let o := serve rt_down (Request GET Path_tasks (Parsed empty_body)) one_task in
  let h := serve rt_down (Request GET Path_health (Parsed empty_body)) one_task in
  reply o = Response 500 (BErrorOf (StorageError "buffering timed out")) ∧
  errorCount (after o) = 1%N ∧
  status (reply h) = 200 ∧
  (∃ r, payload (reply h) = BHealth r ∧ h_mongo r = "disconnected").
Proof. cbv zeta. split_all; try by vm_compute. eexists; by vm_compute. Qed.

(** ** One request: what it does to the counters and to the collection *)

Lemma serve_counters (rt : runtime) (req : request) (s : state) :
  let o := serve rt req s in
  startTime (after o) = startTime s ∧
  requestCount (after o) =
    (requestCount s + (if reaches_counter req then 1 else 0))%N ∧
  errorCount (after o) =
    (errorCount s + (if is_500 (reply o) then 1 else 0))%N ∧
  (is_500 (reply o) = true → reaches_counter req = true).
Proof.
  destruct req as [m p raw].
  destruct m, p, raw; run; crack; rewrite ?N.add_0_r; done.
Qed.

(** Every request has one of the four effects. *)
Lemma serve_effect (rt : runtime) (req : request) (s : state) :
  let o := serve rt req s in
  effect rt req (collection s) (status (reply o)) (collection (after o)).
Proof.
  destruct req as [m p raw].
  destruct m, p, raw; run; crack; cbn -[metrics_text merge_sort documents];
    lazymatch goal with
    | |- effect _ _ _ _ (collection _) => apply Untouched
    | |- effect _ _ _ 201 _ => eapply Created; eauto
    | |- effect _ _ _ _ (<[_:=_]> _) => eapply Updated; eauto
    | |- effect _ _ _ _ (delete _ _) => eapply Deleted; eauto
    end.
Qed.

(** X1. A request that is answered with an error status (400, 404, 500)
    leaves the collection exactly as it was: no handler writes and then
    fails. *)
Theorem failed_request_changes_nothing (rt : runtime) (req : request) (s : state)
  (Hfailed : 400 ≤ status (reply (serve rt req s))) :
  collection (after (serve rt req s)) = collection s.
Proof.
  pose proof (serve_effect rt req s) as He. cbv zeta in He.
  inversion He; try done; lia.
Qed.

Lemma failed_request_changes_nothing_witness :
  collection (after (serve rt_up (Request PUT (Path_task id7)
                                   (Parsed (Body None (Some (JStr "later")) None)))
                           one_task))
  = collection one_task.
Proof.
  apply (failed_request_changes_nothing rt_up
           (Request PUT (Path_task id7) (Parsed (Body None (Some (JStr "later")) None)))
           one_task).
  by vm_compute.
Defined.

(** X2. Only POST, PUT and DELETE can change the collection: a request with
    any other method (GET, HEAD, OPTIONS, PATCH), whatever its path and
    body, leaves every stored task as it was. *)
Theorem safe_methods_change_nothing (rt : runtime) (req : request) (s : state)
  (Hsafe : req_method req ≠ POST ∧ req_method req ≠ PUT ∧ req_method req ≠ DELETE) :
  collection (after (serve rt req s)) = collection s.
Proof.
  destruct Hsafe as (Hpost & Hput & Hdel).
  pose proof (serve_effect rt req s) as He. cbv zeta in He.
  inversion He; done.
Qed.

Lemma safe_methods_change_nothing_witness :
  collection (after (serve rt_up (Request GET Path_tasks (Parsed empty_body)) two_tasks))
  = collection two_tasks.
Proof.
  apply (safe_methods_change_nothing rt_up
           (Request GET Path_tasks (Parsed empty_body)) two_tasks).
  by vm_compute.
Defined.

(** ** The counters over a sequence of requests *)

Lemma serve_all_cons (rt : runtime) (req : request)
  (rest : list (runtime * request)) (s : state) :
  serve_all ((rt, req) :: rest) s =
    (reply (serve rt req s) :: (serve_all rest (after (serve rt req s))).1,
     (serve_all rest (after (serve rt req s))).2).
Proof. cbn [serve_all]. by destruct (serve_all rest _). Qed.

(** X3. Over any sequence of requests, [requestCount] grows by exactly the
    number of requests that reach the counting middleware: every request
    except a preflight and a body that does not parse, whatever it is
    answered. *)
Theorem requestCount_counts_requests (rs : list (runtime * request)) (s : state) :
  requestCount (serve_all rs s).2 =
    (requestCount s + N.of_nat (length (List.filter reaches_counter rs.*2)))%N.
Proof.
  revert s. induction rs as [|[rt req] rest IH]; intros s.
  - cbn. lia.
  - rewrite serve_all_cons. cbn [snd fmap list_fmap List.filter]. rewrite IH.
    destruct (serve_counters rt req s) as (_ & -> & _).
    destruct (reaches_counter req); cbn [length]; lia.
Qed.

(** X4. Over any sequence of requests, [errorCount] grows by exactly the
    number of replies with status 500: the metric counts the failures the
    [catch] blocks answer and nothing else. *)
Theorem errorCount_counts_500 (rs : list (runtime * request)) (s : state) :
  errorCount (serve_all rs s).2 =
    (errorCount s + N.of_nat (length (List.filter is_500 (serve_all rs s).1)))%N.
Proof.
  revert s. induction rs as [|[rt req] rest IH]; intros s.
  - cbn. lia.
  - rewrite serve_all_cons. cbn [fst snd List.filter]. rewrite IH.
    destruct (serve_counters rt req s) as (_ & _ & -> & _).
    destruct (is_500 (reply (serve rt req s))); cbn [length]; lia.
Qed.

(** X5. Over any sequence of requests the counters never decrease,
    [startTime] never changes, and [errorCount] grows by at most as much as
    [requestCount] does: errors never overtake requests. *)
Theorem counters_monotone (rs : list (runtime * request)) (s : state) :
  let s' := (serve_all rs s).2 in
  (requestCount s ≤ requestCount s')%N ∧
  (errorCount s ≤ errorCount s')%N ∧
  (errorCount s' - errorCount s ≤ requestCount s' - requestCount s)%N ∧
  startTime s' = startTime s.
Proof.
  revert s. induction rs as [|[rt req] rest IH]; intros s.
  - cbn. split_all; lia || done.
  - cbv zeta. rewrite serve_all_cons. cbn [snd].
    specialize (IH (after (serve rt req s))). cbv zeta in IH.
    destruct IH as (IH1 & IH2 & IH3 & ->).
    destruct (serve_counters rt req s) as (-> & Hr & He & Himp).
    rewrite Hr, He in *.
    destruct (is_500 (reply (serve rt req s)));
      [rewrite (Himp eq_refl) in *|destruct (reaches_counter req)];
      split_all; try lia; done.
Qed.

(** ** The task routes in closed form *)

Lemma list_closed (rt : runtime) (s : state) (b : body) :
  let o := serve rt (Request GET Path_tasks (Parsed b)) s in
  let tasks := merge_sort newer_first (documents (collection s)) in
  reply o = match storage_fault rt with
            | Some msg => Response 500 (BErrorOf (StorageError msg))
            | None => Response 200 (BTasks tasks (length tasks))
            end ∧
  collection (after o) = collection s.
Proof. run. by destruct (storage_fault rt). Qed.

Lemma post_closed (rt : runtime) (s : state) (b : body) :
  let o := serve rt (Request POST Path_tasks (Parsed b)) s in
  let t := b_title b ≫= cast_title in
  let f := Fields t (Some false) (Some (now rt)) in
  let c := collection s in
  (reply o, collection (after o)) =
    if negb (truthy (b_title b)) then (Response 400 (BError "Title is required"), c)
    else if negb (required_ok t) then (Response 500 (BErrorOf (ValidationError "title")), c)
    else match storage_fault rt with
         | Some msg => (Response 500 (BErrorOf (StorageError msg)), c)
         | None =>
             match c !! new_ObjectId rt with
             | Some _ => (Response 500 (BErrorOf (DuplicateKey (new_ObjectId rt))), c)
             | None => (Response 201 (BTask (Doc (new_ObjectId rt) f)),
                        <[new_ObjectId rt := f]> c)
             end
         end.
Proof. run. by crack. Qed.

Lemma put_closed (rt : runtime) (s : state) (id : string) (b : body) :
  let o := serve rt (Request PUT (Path_task id) (Parsed b)) s in
  let c := collection s in
  (reply o, collection (after o)) =
    match castObjectId id with
    | None => (Response 500 (BErrorOf (CastError "ObjectId" (JStr id) "_id")), c)
    | Some k =>
        match castUpdate rt b with
        | inl e => (Response 500 (BErrorOf e), c)
        | inr u =>
            match storage_fault rt with
            | Some msg => (Response 500 (BErrorOf (StorageError msg)), c)
            | None =>
                match c !! k with
                | None => (Response 404 (BError "Task not found"), c)
                | Some f => (Response 200 (BTask (Doc k (apply_update u f))),
                             <[k := apply_update u f]> c)
                end
            end
        end
    end.
Proof. run. by crack. Qed.

Lemma delete_closed (rt : runtime) (s : state) (id : string) (b : body) :
  let o := serve rt (Request DELETE (Path_task id) (Parsed b)) s in
  let c := collection s in
  (reply o, collection (after o)) =
    match castObjectId id with
    | None => (Response 500 (BErrorOf (CastError "ObjectId" (JStr id) "_id")), c)
    | Some k =>
        match storage_fault rt with
        | Some msg => (Response 500 (BErrorOf (StorageError msg)), c)
        | None =>
            match c !! k with
            | None => (Response 404 (BError "Task not found"), c)
            | Some _ => (Response 200 (BMessage "Task deleted"), delete k c)
            end
        end
    end.
Proof. run. by crack. Qed.

(** ** How the task routes compose *)

Ltac not_created :=
  match goal with
  | Hp : (reply ?o, _) = _, Hc : status (reply ?o) = 201 |- _ =>
      injection Hp as Hp _; rewrite Hp in Hc; cbn in Hc; discriminate
  end.

(** X6. After a POST /api/tasks that is answered 201, a listing holds the
    created task, still holds every task that was stored before, and its
    total is one more than the number of tasks stored before. *)
Theorem create_then_list (rt rt' : runtime) (s : state) (b b' : body)
  (Hcreated : status (reply (serve rt (Request POST Path_tasks (Parsed b)) s)) = 201)
  (Hstorage : storage_fault rt' = None) :
  let o := serve rt (Request POST Path_tasks (Parsed b)) s in
  let l := serve rt' (Request GET Path_tasks (Parsed b')) (after o) in
  ∃ created tasks,
    payload (reply o) = BTask created ∧
    reply l = Response 200 (BTasks tasks (S (size (collection s)))) ∧
    created ∈ tasks ∧
    ∀ k f, collection s !! k = Some f → Doc k f ∈ tasks.
Proof.
  cbv zeta.
  pose proof (post_closed rt s b) as Hp. cbv zeta in Hp.
  set (o := serve rt (Request POST Path_tasks (Parsed b)) s) in *.
  destruct (list_closed rt' (after o) b') as [Hl _]. rewrite Hstorage in Hl.
  destruct (negb (truthy (b_title b))); [not_created|].
  destruct (negb (required_ok _)); [not_created|].
  destruct (storage_fault rt); [not_created|].
  destruct (collection s !! new_ObjectId rt) eqn:Hnew; [not_created|].
  injection Hp as Hr Hc.
  eexists _, _. rewrite Hr. split; [done|]. rewrite Hl, Hc.
  split_all.
  - do 2 f_equal.
    by rewrite merge_sort_Permutation, documents_length, map_size_insert_None.
  - rewrite merge_sort_Permutation. apply documents_spec, lookup_insert_eq.
  - intros k f Hk. rewrite merge_sort_Permutation. apply documents_spec.
    rewrite lookup_insert_ne; [done|]. congruence.
Qed.

Lemma create_then_list_witness :
  let o := serve rt_up (Request POST Path_tasks (with_title (JStr "Buy milk"))) fresh_state in
  let l := serve rt_up (Request GET Path_tasks (Parsed empty_body)) (after o) in
  ∃ created tasks,
    payload (reply o) = BTask created ∧
    reply l = Response 200 (BTasks tasks (S (size (collection fresh_state)))) ∧
    created ∈ tasks ∧
    ∀ k f, collection fresh_state !! k = Some f → Doc k f ∈ tasks.
Proof.
  exact (create_then_list rt_up rt_up fresh_state
           (Body (Some (JStr "Buy milk")) None None) empty_body eq_refl eq_refl).
Defined.

(** X7. Creating a task and then deleting it by the id it was given brings
    the collection back to what it was: 201, then 200, and no trace of the
    task. *)
Theorem create_then_delete (rt rt' : runtime) (s : state) (b b' : body) (id : string)
  (Hcreated : status (reply (serve rt (Request POST Path_tasks (Parsed b)) s)) = 201)
  (Hid : castObjectId id = Some (new_ObjectId rt))
  (Hstorage : storage_fault rt' = None) :
  let o := serve rt (Request POST Path_tasks (Parsed b)) s in
  let d := serve rt' (Request DELETE (Path_task id) (Parsed b')) (after o) in
  reply d = Response 200 (BMessage "Task deleted") ∧
  collection (after d) = collection s.
Proof.
  cbv zeta.
  pose proof (post_closed rt s b) as Hp. cbv zeta in Hp.
  set (o := serve rt (Request POST Path_tasks (Parsed b)) s) in *.
  pose proof (delete_closed rt' (after o) id b') as Hd. cbv zeta in Hd.
  rewrite Hid, Hstorage in Hd.
  destruct (negb (truthy (b_title b))); [not_created|].
  destruct (negb (required_ok _)); [not_created|].
  destruct (storage_fault rt); [not_created|].
  destruct (collection s !! new_ObjectId rt) eqn:Hnew; [not_created|].
  injection Hp as Hr Hc. rewrite Hc, lookup_insert_eq in Hd.
  injection Hd as -> ->. split; [done|]. by apply delete_insert_id.
Qed.

Lemma create_then_delete_witness :
  let o := serve rt_up (Request POST Path_tasks (with_title (JStr "Buy milk"))) fresh_state in
  let d := serve rt_up (Request DELETE (Path_task id7) (Parsed empty_body)) (after o) in
  reply d = Response 200 (BMessage "Task deleted") ∧
  collection (after d) = collection fresh_state.
Proof.
  exact (create_then_delete rt_up rt_up fresh_state
           (Body (Some (JStr "Buy milk")) None None) empty_body id7
           eq_refl eq_refl eq_refl).
Defined.

Ltac same_again H1 H2 :=
  let Hr := fresh in let Hc := fresh in
  injection H1 as Hr Hc; rewrite ?Hc in H2;
  injection H2 as -> ->; rewrite Hr, Hc.

Lemma castUpdate_parser (rt rt' : runtime) (b : body) :
  Date_parse rt' = Date_parse rt → castUpdate rt' b = castUpdate rt b.
Proof. intros H. unfold castUpdate. by rewrite H. Qed.

Lemma apply_update_twice (u : update) (f : fields) :
  apply_update u (apply_update u f) = apply_update u f.
Proof.
  unfold apply_update; cbn.
  by destruct (set_title u), (set_completed u), (set_createdAt u).
Qed.

(** X8. A PUT /api/tasks/:id whose body gives plain values to fields (no
    update operator) is idempotent: sending the same id and body a second
    time, with the storage and the date parser behaving as the first time,
    is answered exactly as the first and leaves the collection as the
    first left it. *)
Theorem update_idempotent (rt rt' : runtime) (s : state) (id : string) (b : body)
  (Hfault : storage_fault rt' = storage_fault rt)
  (Hparse : Date_parse rt' = Date_parse rt) :
  let o1 := serve rt (Request PUT (Path_task id) (Parsed b)) s in
  let o2 := serve rt' (Request PUT (Path_task id) (Parsed b)) (after o1) in
  reply o2 = reply o1 ∧ collection (after o2) = collection (after o1).
Proof.
  cbv zeta.
  pose proof (put_closed rt s id b) as H1. cbv zeta in H1.
  set (o1 := serve rt (Request PUT (Path_task id) (Parsed b)) s) in *.
  pose proof (put_closed rt' (after o1) id b) as H2. cbv zeta in H2.
  rewrite (castUpdate_parser rt rt' b Hparse), Hfault in H2.
  destruct (castObjectId id) as [k|]; [|by same_again H1 H2].
  destruct (castUpdate rt b) as [e|u]; [by same_again H1 H2|].
  destruct (storage_fault rt); [by same_again H1 H2|].
  destruct (collection s !! k) as [f|] eqn:Hk.
  - injection H1 as Hr1 Hc1. rewrite Hc1, lookup_insert_eq in H2.
    injection H2 as -> ->. rewrite Hr1, Hc1, apply_update_twice.
    split; [done|]. apply insert_insert_eq.
  - injection H1 as Hr1 Hc1. rewrite Hc1, Hk in H2.
    injection H2 as -> ->. by rewrite Hr1, Hc1.
Qed.

Lemma update_idempotent_witness :
  let b := Body (Some (JStr " Buy oat milk ")) (Some (JNum 1)) None in
  let o1 := serve rt_up (Request PUT (Path_task id7) (Parsed b)) one_task in
  let o2 := serve rt_up (Request PUT (Path_task id7) (Parsed b)) (after o1) in
  reply o2 = reply o1 ∧ collection (after o2) = collection (after o1).
Proof.
  exact (update_idempotent rt_up rt_up one_task id7
           (Body (Some (JStr " Buy oat milk ")) (Some (JNum 1)) None)
           eq_refl eq_refl).
Defined.

(** X9. A PUT never creates and never removes a task: whatever its id and
    body, and whatever it is answered, the ids stored after it are the ids
    stored before it. *)
Theorem update_keeps_ids (rt : runtime) (req : request) (s : state)
  (Hput : req_method req = PUT) :
  dom (collection (after (serve rt req s))) = dom (collection s).
Proof.
  pose proof (serve_effect rt req s) as He. cbv zeta in He.
  inversion He as [ | | k f u _ _ _ Hk | ]; try congruence.
  apply dom_insert_lookup_L. by rewrite Hk.
Qed.

Lemma update_keeps_ids_witness :
  dom (collection (after (serve rt_up
         (Request PUT (Path_task id7) (with_title (JStr "Buy tea"))) one_task)))
  = dom (collection one_task).
Proof.
  apply (update_keeps_ids rt_up
           (Request PUT (Path_task id7) (with_title (JStr "Buy tea"))) one_task).
  reflexivity.
Defined.

(** X10. Deleting twice: once DELETE /api/tasks/:id has been answered 200 or
    404, the same DELETE again is answered 404 with
    [{ error: "Task not found" }] and changes nothing. *)
Theorem delete_twice (rt rt' : runtime) (s : state) (id : string) (b b' : body)
  (Hfirst : status (reply (serve rt (Request DELETE (Path_task id) (Parsed b)) s)) < 500)
  (Hstorage : storage_fault rt' = None) :
  let o1 := serve rt (Request DELETE (Path_task id) (Parsed b)) s in
  let o2 := serve rt' (Request DELETE (Path_task id) (Parsed b')) (after o1) in
  reply o2 = Response 404 (BError "Task not found") ∧
  collection (after o2) = collection (after o1).
Proof.
  cbv zeta.
  pose proof (delete_closed rt s id b) as H1. cbv zeta in H1.
  set (o1 := serve rt (Request DELETE (Path_task id) (Parsed b)) s) in *.
  pose proof (delete_closed rt' (after o1) id b') as H2. cbv zeta in H2.
  rewrite Hstorage in H2.
  destruct (castObjectId id) as [k|];
    [|injection H1 as Hr _; rewrite Hr in Hfirst; cbn in Hfirst; lia].
  destruct (storage_fault rt);
    [injection H1 as Hr _; rewrite Hr in Hfirst; cbn in Hfirst; lia|].
  destruct (collection s !! k) as [f|] eqn:Hk; injection H1 as Hr1 Hc1.
  - rewrite Hc1, lookup_delete_eq in H2. by injection H2 as -> ->.
  - rewrite Hc1, Hk in H2. by injection H2 as -> ->.
Qed.

Lemma delete_twice_witness :
  let o1 := serve rt_up (Request DELETE (Path_task id7) (Parsed empty_body)) one_task in
  let o2 := serve rt_up (Request DELETE (Path_task id7) (Parsed empty_body)) (after o1) in
  reply o2 = Response 404 (BError "Task not found") ∧
  collection (after o2) = collection (after o1).
Proof.
  apply (delete_twice rt_up rt_up one_task id7 empty_body empty_body).
  - by vm_compute.
  - reflexivity.
Defined.

(** X11. A POST only adds: whatever the body and whatever the answer, every
    task stored before is stored unchanged after, and at most one task is
    new.  An id that is already taken is never overwritten. *)
Theorem create_only_adds (rt : runtime) (req : request) (s : state)
  (Hpost : req_method req = POST) :
  let c' := collection (after (serve rt req s)) in
  collection s ⊆ c' ∧ (size c' ≤ S (size (collection s)))%nat.
Proof.
  cbv zeta. pose proof (serve_effect rt req s) as He. cbv zeta in He.
  inversion He as [ | t _ _ _ Hnew | | ]; try congruence.
  - split; [done|lia].
  - split; [by apply insert_subseteq|].
    by rewrite map_size_insert_None.
Qed.

Lemma create_only_adds_witness :
  let c' := collection (after (serve rt_up
              (Request POST Path_tasks (with_title (JStr "Buy tea"))) one_task)) in
  collection one_task ⊆ c' ∧ (size c' ≤ S (size (collection one_task)))%nat.
Proof.
  apply (create_only_adds rt_up
           (Request POST Path_tasks (with_title (JStr "Buy tea"))) one_task).
  reflexivity.
Defined.

(** X12. A DELETE only removes: whatever it is answered, every task stored
    after it was stored, unchanged, before it, and at most one task is
    gone. *)
Theorem delete_only_removes (rt : runtime) (req : request) (s : state)
  (Hdelete : req_method req = DELETE) :
  let c' := collection (after (serve rt req s)) in
  c' ⊆ collection s ∧ (size (collection s) ≤ S (size c'))%nat.
Proof.
  cbv zeta. pose proof (serve_effect rt req s) as He. cbv zeta in He.
  inversion He as [ | | | k f _ _ Hk ]; try congruence.
  - split; [done|lia].
  - split; [apply delete_subseteq|].
    rewrite <- (insert_delete_id (collection s) k f Hk) at 1.
    rewrite map_size_insert_None by apply lookup_delete_eq. done.
Qed.

Lemma delete_only_removes_witness :
  let c' := collection (after (serve rt_up
              (Request DELETE (Path_task id7) (Parsed empty_body)) two_tasks)) in
  c' ⊆ collection two_tasks ∧ (size (collection two_tasks) ≤ S (size c'))%nat.
Proof.
  apply (delete_only_removes rt_up
           (Request DELETE (Path_task id7) (Parsed empty_body)) two_tasks).
  reflexivity.
Defined.

(** ** Titles as they are stored *)











(** A title given between Unicode spaces is stored bare. *)
Example update_trims_unicode :
  title <$> collection (after (serve rt_up
    (Request PUT (Path_task id7) (with_title (JStr (blank_title +:+ "Buy tea" +:+ blank_title))))
    one_task)) !! 7%N
  = Some (Some "Buy tea").
Proof. by vm_compute. Qed.

Lemma serve_all_snoc_state (rt : runtime) (req : request)
  (rest : list (runtime * request)) (s : state) :
  (serve_all ((rt, req) :: rest) s).2 = (serve_all rest (after (serve rt req s))).2.
Proof. by rewrite serve_all_cons. Qed.

(** X14. The PUT route is the only way to an empty title: over any
    sequence of requests none of which is a PUT, if every stored task has
    a non-empty title at the start, every stored task has one at the
    end. *)
Theorem titles_kept_without_put (rs : list (runtime * request)) (s : state)
  (Hno_put : Forall (λ r, req_method r.2 ≠ PUT) rs)
  (Htitled : every_task_titled s) :
  every_task_titled (serve_all rs s).2.
Proof.
  revert s Htitled. induction Hno_put as [|[rt req] rest Hm _ IH]; intros s Hs.
  - done.
  - rewrite serve_all_snoc_state. apply IH. by apply others_keep_titles.
Qed.

Lemma titles_kept_without_put_witness :
  every_task_titled
    (serve_all [ (rt_up, Request POST Path_tasks (with_title (JStr "   ")));
                 (rt_up, Request DELETE (Path_task id7) (Parsed empty_body));
                 (rt_up, Request POST Path_tasks (with_title (JStr "Buy tea"))) ]
               one_task).2.
Proof.
  apply titles_kept_without_put.
  - repeat constructor; by vm_compute.
  - unfold every_task_titled, one_task; cbn. by apply map_Forall_singleton.
Defined.

(** ** POST /api/tasks and the title it is given *)

(** X15. POST /api/tasks is answered 400 with
    [{ error: "Title is required" }] exactly for the titles JavaScript
    takes for false: a missing title, [null], [false], [0] and the empty
    string.  Every other title gets past the handler's check. *)
Theorem create_400_iff_falsy (rt : runtime) (s : state) (b : body) :
  let o := serve rt (Request POST Path_tasks (Parsed b)) s in
  reply o = Response 400 (BError "Title is required") ↔
  b_title b = None ∨ b_title b = Some JNull ∨ b_title b = Some (JBool false) ∨
  b_title b = Some (JNum 0) ∨ b_title b = Some (JStr "").
Proof.
  cbv zeta. pose proof (post_closed rt s b) as Hp. cbv zeta in Hp.
  assert (truthy (b_title b) = false ↔
          b_title b = None ∨ b_title b = Some JNull ∨ b_title b = Some (JBool false) ∨
          b_title b = Some (JNum 0) ∨ b_title b = Some (JStr "")) as <-.
  { split.
    - destruct (b_title b) as [[|[]|n|t]|]; cbn; intros H; try discriminate; eauto 6.
      + apply negb_false_iff, Z.eqb_eq in H as ->. eauto 6.
      + apply negb_false_iff, String.eqb_eq in H as ->. eauto 6.
    - intros [H|[H|[H|[H|H]]]]; by rewrite H. }
  destruct (truthy (b_title b)); cbn [negb] in Hp.
  - split; [|done]. intros Hr.
    assert (reply (serve rt (Request POST Path_tasks (Parsed b)) s)
            ≠ Response 400 (BError "Title is required")); [|done].
    destruct (negb (required_ok _)); [by injection Hp as -> _|].
    destruct (storage_fault rt); [by injection Hp as -> _|].
    destruct (collection s !! new_ObjectId rt); by injection Hp as -> _.
  - by injection Hp as -> _.
Qed.

(** X16. A title made of white space only (spaces, tabs, line ends,
    no-break and other Unicode spaces) gets past the handler's check and
    fails the schema's [required] once trimmed: the answer is 500 with the
    validation error, not 400; it is counted as an error and nothing is
    stored, whether or not the storage is reachable. *)
Theorem create_blank_title_500 (rt : runtime) (s : state) (b : body) (t : string)
  (Htitle : b_title b = Some (JStr t))
  (Hnonempty : t ≠ "")
  (Hblank : trim t = "") :
  let o := serve rt (Request POST Path_tasks (Parsed b)) s in
  reply o = Response 500 (BErrorOf (ValidationError "title")) ∧
  errorCount (after o) = (errorCount s + 1)%N ∧
  collection (after o) = collection s.
Proof.
  run. rewrite Htitle; cbn.
  rewrite (eqb_empty_false t Hnonempty); cbn. rewrite Hblank; cbn. done.
Qed.

Lemma create_blank_title_500_witness :
  let o := serve rt_down (Request POST Path_tasks (with_title (JStr blank_title))) one_task in
  reply o = Response 500 (BErrorOf (ValidationError "title")) ∧
  errorCount (after o) = (errorCount one_task + 1)%N ∧
  collection (after o) = collection one_task.
Proof.
  apply (create_blank_title_500 rt_down one_task
           (Body (Some (JStr blank_title)) None None) blank_title);
    by vm_compute.
Defined.

(** ** When the storage is down *)

(** X17. With the storage failing, every task route whose input gets as far
    as the driver is answered 500 with the driver's message, counts one
    error and changes nothing: the listing, a creation with an acceptable
    title, an update and a deletion with a well-formed id. *)
Theorem storage_down_500 (rt : runtime) (s : state) (msg : string)
  (Hdown : storage_fault rt = Some msg) :
  let failed o :=
    reply o = Response 500 (BErrorOf (StorageError msg)) ∧
    errorCount (after o) = (errorCount s + 1)%N ∧
    collection (after o) = collection s in
  (∀ b, failed (serve rt (Request GET Path_tasks (Parsed b)) s)) ∧
  (∀ b, truthy (b_title b) = true →
        required_ok (b_title b ≫= cast_title) = true →
        failed (serve rt (Request POST Path_tasks (Parsed b)) s)) ∧
  (∀ id k b u, castObjectId id = Some k → castUpdate rt b = inr u →
        failed (serve rt (Request PUT (Path_task id) (Parsed b)) s)) ∧
  (∀ id k b, castObjectId id = Some k →
        failed (serve rt (Request DELETE (Path_task id) (Parsed b)) s)).
Proof.
  cbv zeta. split_all.
  - intros b. run. by rewrite Hdown.
  - intros b Ht Hr. run. rewrite Ht; cbn.
    replace (required_ok _) with true. cbn. by rewrite Hdown.
  - intros id k b u Hid Hu. run. rewrite Hid; cbn. rewrite Hu; cbn. by rewrite Hdown.
  - intros id k b Hid. run. rewrite Hid; cbn. by rewrite Hdown.
Qed.

Lemma storage_down_500_witness :
  let failed o :=
    reply o = Response 500 (BErrorOf (StorageError "buffering timed out")) ∧
    errorCount (after o) = (errorCount one_task + 1)%N ∧
    collection (after o) = collection one_task in
  (∀ b, failed (serve rt_down (Request GET Path_tasks (Parsed b)) one_task)) ∧
  (∀ b, truthy (b_title b) = true →
        required_ok (b_title b ≫= cast_title) = true →
        failed (serve rt_down (Request POST Path_tasks (Parsed b)) one_task)) ∧
  (∀ id k b u, castObjectId id = Some k → castUpdate rt_down b = inr u →
        failed (serve rt_down (Request PUT (Path_task id) (Parsed b)) one_task)) ∧
  (∀ id k b, castObjectId id = Some k →
        failed (serve rt_down (Request DELETE (Path_task id) (Parsed b)) one_task)).
Proof.
  exact (storage_down_500 rt_down one_task "buffering timed out" eq_refl).
Defined.

(** ** The observability routes *)

(** X18. What the two observability routes read.  The reply of GET /health
    is determined by the clock, the connection's ready state, the three
    environment variables and [startTime]; the reply of GET /metrics by the
    clock, the heap in use, the two counters and [startTime].  Neither
    depends on what the collection holds or on whether a storage operation
    would succeed, and /metrics does not depend on the connection at
    all. *)
Theorem observability_ignores_database (rt rt' : runtime) (s s' : state) (b b' : body)
  (Hclock : now rt' = now rt)
  (Hstart : startTime s' = startTime s) :
  (readyState rt' = readyState rt →
   APP_VERSION rt' = APP_VERSION rt → HOSTNAME rt' = HOSTNAME rt →
   NODE_ENV rt' = NODE_ENV rt →
   reply (serve rt' (Request GET Path_health (Parsed b')) s') =
   reply (serve rt (Request GET Path_health (Parsed b)) s)) ∧
  (heapUsed rt' = heapUsed rt →
   requestCount s' = requestCount s → errorCount s' = errorCount s →
   reply (serve rt' (Request GET Path_metrics (Parsed b')) s') =
   reply (serve rt (Request GET Path_metrics (Parsed b)) s)).
Proof.
  split.
  - intros Hready Hv Hh He. run. by rewrite Hclock, Hstart, Hready, Hv, Hh, He.
  - intros Hheap Hr He. run. unfold metrics_text; cbn.
    by rewrite Hclock, Hstart, Hheap, Hr, He.
Qed.

(** The storage down and the collection different, the connection state
    the same: the same health report; and the same metrics even with the
    connection state different. *)
Lemma observability_ignores_database_witness :
  let rt' := Runtime 1700000001500 52428800 Connected None None None 9
                     (Some "buffering timed out") no_dates in
  let s' := State 3 0 1700000000000 ∅ in
  reply (serve rt' (Request GET Path_health (Parsed empty_body)) s') =
  reply (serve rt_up (Request GET Path_health (Parsed empty_body)) one_task) ∧
  reply (serve rt_down (Request GET Path_metrics (Parsed empty_body)) s') =
  reply (serve rt_up (Request GET Path_metrics (Parsed empty_body)) one_task).
Proof.
  split.
  - apply (observability_ignores_database rt_up _ one_task _ empty_body empty_body
             eq_refl eq_refl); reflexivity.
  - apply (observability_ignores_database rt_up rt_down one_task _ empty_body empty_body
             eq_refl eq_refl); reflexivity.
Defined.

Lemma env_or_nonempty (v : option string) (d : string) : d ≠ "" → env_or v d ≠ "".
Proof.
  intros Hd. unfold env_or. destruct v as [x|]; [|done].
  destruct (String.eqb_spec x ""); done.
Qed.

(** X19. The health report gives the uptime in whole seconds, rounded
    down: [1000 * uptime <= now - startTime < 1000 * uptime + 1000]; and its
    version, hostname and environment are never empty, an unset or empty
    variable giving "1.0.0", "local" and "development". *)
Theorem health_report_fields (rt : runtime) (s : state) (b : body) :
  let o := serve rt (Request GET Path_health (Parsed b)) s in
  ∃ h, payload (reply o) = BHealth h ∧
    1000 * h_uptime h ≤ now rt - startTime s < 1000 * h_uptime h + 1000 ∧
    h_version h ≠ "" ∧ h_hostname h ≠ "" ∧ h_environment h ≠ "" ∧
    h_version h = match APP_VERSION rt with
                  | None | Some "" => "1.0.0"
                  | Some v => v
                  end.
Proof.
  run. eexists; split; [reflexivity|]. cbn.
  split; [|split_all; try (by apply env_or_nonempty)].
  - pose proof (Z.div_mod (now rt - startTime s) 1000 ltac:(lia)).
    pose proof (Z.mod_pos_bound (now rt - startTime s) 1000 ltac:(lia)). lia.
  - unfold env_or. destruct (APP_VERSION rt) as [v|]; [|done].
    destruct (String.eqb_spec v "") as [->|Hv]; [done|]. by destruct v.
Qed.

(** X20. The counters can be read back from the text of /metrics: two
    states of the process that serve the same text have the same
    [requestCount], the same [errorCount] and the same heap usage. *)
Theorem metrics_text_determines_counters (rt rt' : runtime) (s s' : state)
  (Hsame : metrics_text rt s = metrics_text rt' s') :
  requestCount s = requestCount s' ∧
  errorCount s = errorCount s' ∧
  heapUsed rt = heapUsed rt'.
Proof.
  apply (f_equal read_exposition) in Hsame.
  rewrite !metrics_text_read in Hsame.
  injection Hsame as Hr He _ Hh.
  split_all; by apply (inj pretty).
Qed.

Lemma metrics_text_determines_counters_witness :
  requestCount one_task = requestCount one_task ∧
  errorCount one_task = errorCount one_task ∧
  heapUsed rt_up = heapUsed rt_down.
Proof.
  apply (metrics_text_determines_counters rt_up rt_down one_task one_task).
  reflexivity.
Defined.

(** ** The route table *)

(** X21. A request is answered 404 with [{ error: "Route not found" }]
    exactly when its method and path match none of the six routes; it is
    then counted as a request, not as an error, and nothing is stored. *)
Theorem route_not_found_iff (rt : runtime) (m : method) (p : path) (b : body)
  (s : state) (Hm : m ≠ OPTIONS) :
  let o := serve rt (Request m p (Parsed b)) s in
  (reply o = Response 404 (BError "Route not found") ↔ unmatched m p = true) ∧
  (unmatched m p = true →
     requestCount (after o) = (requestCount s + 1)%N ∧
     errorCount (after o) = errorCount s ∧
     collection (after o) = collection s).
Proof.
  destruct m; try done; destruct p; run; crack;
    cbn -[metrics_text merge_sort documents]; split; try split; try done.
Qed.

Lemma route_not_found_iff_witness :
  let o := serve rt_up (Request PATCH (Path_task id7) (Parsed empty_body)) one_task in
  (reply o = Response 404 (BError "Route not found")
     ↔ unmatched PATCH (Path_task id7) = true) ∧
  (unmatched PATCH (Path_task id7) = true →
     requestCount (after o) = (requestCount one_task + 1)%N ∧
     errorCount (after o) = errorCount one_task ∧
     collection (after o) = collection one_task).
Proof.
  apply (route_not_found_iff rt_up PATCH (Path_task id7) empty_body one_task).
  discriminate.
Defined.

(** X22. The status codes each route can answer with, for a request whose
    body parses and whose path decodes: /health and /metrics only 200; the
    listing 200 or 500; a creation 201, 400 or 500; an update or a
    deletion 200, 404 or 500; a preflight 204; anything else 404. *)
Theorem status_by_route (rt : runtime) (m : method) (p : path) (b : body)
  (s : state) :
  let st := status (reply (serve rt (Request m p (Parsed b)) s)) in
  match m, p with
  | OPTIONS, _ => st = 204
  | (GET | HEAD), (Path_health | Path_metrics) => st = 200
  | (GET | HEAD), Path_tasks => st = 200 ∨ st = 500
  | POST, Path_tasks => st = 201 ∨ st = 400 ∨ st = 500
  | (PUT | DELETE), Path_task _ => st = 200 ∨ st = 404 ∨ st = 500
  | _, _ => st = 404
  end.
Proof.
  destruct m, p; run; crack; cbn -[metrics_text merge_sort documents]; auto.
Qed.

(** ** Start-up *)

(** X23. [start()] always gets to [app.listen]: whether
    [mongoose.connect] resolves or rejects, the server listens once, after
    the connection attempt, on host 0.0.0.0 and on the port of [PORT] (5000
    when it is unset or empty).  A rejected connection is logged as two
    warnings and a resolved one as none. *)
Theorem start_always_listens (env_PORT env_MONGO_URI connect : option string) :
  let port := match env_PORT with
              | None | Some "" => "5000"
              | Some p => p
              end in
  ∃ pre post,
    start env_PORT env_MONGO_URI connect =
      Connect (MONGO_URI env_MONGO_URI) :: pre ++ Listen port "0.0.0.0" :: post ∧
    List.filter is_listen (pre ++ post) = [] ∧
    length (List.filter is_warn (pre ++ post)) =
      match connect with None => 0%nat | Some _ => 2%nat end.
Proof.
  cbv zeta. unfold start.
  replace (PORT env_PORT)
    with (match env_PORT with None | Some "" => "5000" | Some p => p end).
  2: { unfold PORT, env_or. destruct env_PORT as [p|]; [|done].
       destruct (String.eqb_spec p "") as [->|Hp]; [done|]. by destruct p. }
  destruct connect as [msg|].
  - eexists [_; _], [_; _; _]. by split_all.
  - eexists [_], [_; _; _]. by split_all.
Qed.
